(** * PDF processing scripts: page-range resolution and command behaviour

    A shallow embedding of the scripts under
    [mcp-skills/examples/skills/pdf-processing/scripts]:
    [split_pdf.py], [merge_pdfs.py], [protect_pdf.py] and
    [add_watermark.py].

    Python values are modelled as follows: [int] is [Z] (unbounded), [str] is
    [string] restricted to ASCII text, a [list] of ints is [list Z], a raised
    exception is the [Raise] branch of [result]. *)

From Stdlib Require Import ZArith String Ascii List Lia DecimalString Floats.
From Stdlib Require Import DecimalPos.
From stdpp Require Import base numbers list gmap sets strings sorting.

Local Open Scope string_scope.
Local Open Scope Z_scope.
Local Open Scope list_scope.

(** ** Results of fallible computations *)

Inductive result (E A : Type) : Type :=
| Ok (a : A)
| Raise (e : E).
Arguments Ok {E A} a.
Arguments Raise {E A} e.

Definition rbind {E A B} (r : result E A) (k : A -> result E B) : result E B :=
  match r with
  | Ok a => k a
  | Raise e => Raise e
  end.

Notation "'let?' x ':=' r 'in' k" := (rbind r (fun x => k))
  (at level 10, x name, r at level 100, k at level 200).

(** ** The Python built-ins the scripts rely on *)

Module Py.

(** [c in s] for a one-character [c]. *)
Fixpoint contains (c : ascii) (s : string) : bool :=
  match s with
  | EmptyString => false
  | String d r => if Ascii.eqb d c then true else contains c r
  end.

(** [s.split(sep)] for a one-character separator: the pieces between the
    separators, empty pieces included; never the empty list. *)
Fixpoint split (sep : ascii) (s : string) : list string :=
  match s with
  | EmptyString => [EmptyString]
  | String c r =>
      if Ascii.eqb c sep then EmptyString :: split sep r
      else match split sep r with
           | h :: t => String c h :: t
           | [] => [String c EmptyString]
           end
  end.

(** Whitespace as [int()] sees it on ASCII text: TAB to CR, and space. *)
Definition is_space (c : ascii) : bool :=
  let n := nat_of_ascii c in
  ((9 <=? n)%nat && (n <=? 13)%nat) || (n =? 32)%nat.

Fixpoint lstrip (s : string) : string :=
  match s with
  | EmptyString => EmptyString
  | String c r => if is_space c then lstrip r else s
  end.

Fixpoint rstrip (s : string) : string :=
  match s with
  | EmptyString => EmptyString
  | String c r =>
      match rstrip r with
      | EmptyString => if is_space c then EmptyString else String c EmptyString
      | r' => String c r'
      end
  end.

Definition strip (s : string) : string := lstrip (rstrip s).

Definition digit_value (c : ascii) : option Z :=
  let n := nat_of_ascii c in
  if ((48 <=? n)%nat && (n <=? 57)%nat) then Some (Z.of_nat n - 48) else None.

(** The digit run of a base-10 literal: digits, with single underscores
    allowed between two digits. [prev_us] records that the previous
    character was an underscore. *)
Fixpoint digits (acc : Z) (prev_us : bool) (s : string) : option Z :=
  match s with
  | EmptyString => if prev_us then None else Some acc
  | String c r =>
      if Ascii.eqb c "_" then
        if prev_us then None else digits acc true r
      else
        match digit_value c with
        | Some d => digits (10 * acc + d) false r
        | None => None
        end
  end.

(** A digit run starts with a digit. *)
Definition unsigned (s : string) : option Z :=
  match s with
  | EmptyString => None
  | String c _ => if Ascii.eqb c "_" then None else digits 0 false s
  end.

(** [int(s)]: surrounding whitespace is dropped, one sign is allowed, the
    rest is a digit run. [None] stands for the [ValueError] "invalid
    literal for int() with base 10". The interpreter's cap on the number
    of digits of a literal (4300 by default in recent versions) is not
    modelled. *)
Definition int (s : string) : option Z :=
  match strip s with
  | String "+" r => unsigned r
  | String "-" r => Z.opp <$> unsigned r
  | r => unsigned r
  end.

(** [range(a, b)] as the list of its elements. *)
Definition range (a b : Z) : list Z :=
  (fun i => a + Z.of_nat i) <$> seq 0 (Z.to_nat (b - a)).

(** [sorted(set(l))]. The iteration order of the set is immaterial since
    the elements are sorted afterwards. *)
Definition set (l : list Z) : gset Z := list_to_set l.
Definition sorted (s : gset Z) : list Z := merge_sort Z.le (elements s).

(** [str(n)] for an int. *)
Definition str (n : Z) : string := NilZero.string_of_int (Z.to_int n).

(** [repr(s)] for ASCII text. *)
Definition hex_digit (n : nat) : ascii :=
  ascii_of_nat (if (n <? 10)%nat then 48 + n else 87 + n).

Definition backslash : ascii := ascii_of_nat 92.
Definition double_quote : ascii := ascii_of_nat 34.
Definition single_quote : ascii := ascii_of_nat 39.

Definition repr_char (quote c : ascii) : string :=
  let n := nat_of_ascii c in
  if Ascii.eqb c quote || Ascii.eqb c backslash then
    String backslash (String c EmptyString)
  else if (n =? 9)%nat then String backslash "t"
  else if (n =? 10)%nat then String backslash "n"
  else if (n =? 13)%nat then String backslash "r"
  else if (n <? 32)%nat || (n =? 127)%nat then
    String backslash
      (String "x" (String (hex_digit (n / 16))
                     (String (hex_digit (n mod 16)) EmptyString)))
  else String c EmptyString.

Fixpoint repr_body (quote : ascii) (s : string) : string :=
  match s with
  | EmptyString => EmptyString
  | String c r => repr_char quote c +:+ repr_body quote r
  end.

(** Single quotes, unless the text has a single quote and no double one. *)
Definition repr (s : string) : string :=
  let quote :=
    if contains single_quote s && negb (contains double_quote s)
    then double_quote else single_quote in
  String quote (repr_body quote s +:+ String quote EmptyString).

End Py.

(** ** The environment of the scripts

    The scripts delegate every PDF operation to pypdf and reportlab and touch
    the file system through [open] and [os]. These collaborators are not part
    of the repository; the model below fixes the behaviour the scripts rely
    on. Paths are opaque names: two names are two files, and the parent of
    a path is not looked at, so opening a path for writing fails on a
    directory only, and writing to an opened file always succeeds. A
    [PdfWriter] is one mutable object: what [append] has added to it before
    raising stays in it. *)

Module Lib.

(** *** Documents *)

Inductive xform : Type :=
| Translate (dx dy : Z)
| Rotate (degrees : Z).

(** A string drawn by reportlab, with the graphics state in force. *)
Record stamp : Type := Stamp {
  stamp_text : string;
  stamp_font : string;
  stamp_size : Z;
  stamp_gray : float;
  stamp_ctm : list xform
}.

(** A page is a stack of layers: content the model does not look into, and
    strings drawn on top of it. *)
Inductive layer : Type :=
| Content (id : N)
| Drawn (s : stamp).

Definition page : Type := list layer.

(** [doc_encryption] holds the user and owner passwords of an encrypted
    document. *)
Record document : Type := Document {
  doc_pages : list page;
  doc_encryption : option (string * string)
}.

(** *** Files, output and exceptions *)

(** [Corrupt] is a file that [PdfReader] refuses to open; [Damaged] is a
    PDF that opens and then breaks: [readable] are the pages that can be
    copied out of it before the library raises. *)
Inductive node : Type :=
| PdfFile (d : document)
| Corrupt (complaint : string)
| Damaged (readable : list page) (complaint : string)
| Directory.

Inductive event : Type :=
| Print (line : string)
| OpenRead (path : string)
| OpenWrite (path : string)
| MakeDirs (path : string).

(** [files] is the file system; [log] lists, oldest first, the lines printed
    to standard error and the file-system calls made. *)
Record world : Type := World {
  files : gmap string node;
  log : list event
}.

(** [SystemExit] is not an [Exception]; the other two are, and
    [Exception] stands for every subclass the scripts do not tell apart. *)
Inductive exn : Type :=
| SystemExit (code : Z)
| FileNotFoundError (msg : string)
| Exception (msg : string).

(** [str(e)] *)
Definition exn_str (e : exn) : string :=
  match e with
  | SystemExit code => Py.str code
  | FileNotFoundError msg => msg
  | Exception msg => msg
  end.

(** *** Computations that print, touch files and may raise *)

Definition io (A : Type) : Type := world -> result exn A * world.

Definition ret {A} (a : A) : io A := fun w => (Ok a, w).
Definition raise {A} (e : exn) : io A := fun w => (Raise e, w).
Definition bind {A B} (m : io A) (k : A -> io B) : io B :=
  fun w =>
    match m w with
    | (Ok a, w') => k a w'
    | (Raise e, w') => (Raise e, w')
    end.

Definition emit (e : event) : io unit :=
  fun w => (Ok tt, World (files w) (log w ++ [e])).

(** [print(line, file=sys.stderr)] *)
Definition print (line : string) : io unit := emit (Print line).

(** [sys.exit(code)] *)
Definition sys_exit {A} (code : Z) : io A := raise (SystemExit code).

End Lib.

Notation "'let!' x ':=' m 'in' k" := (Lib.bind m (fun x => k))
  (at level 10, x name, m at level 100, k at level 200).
Notation "m '>>' k" := (Lib.bind m (fun _ => k))
  (at level 100, k at level 200, right associativity).

Module Os.
Import Lib.

Definition no_such_file (path : string) : string :=
  "[Errno 2] No such file or directory: " +:+ Py.repr path.
Definition is_a_directory (path : string) : string :=
  "[Errno 21] Is a directory: " +:+ Py.repr path.
Definition file_exists (path : string) : string :=
  "[Errno 17] File exists: " +:+ Py.repr path.

(** [open(path, 'rb')]: the node at [path]. *)
Definition open_rb (path : string) : io node :=
  emit (OpenRead path) >>
  fun w =>
    match files w !! path with
    | None => (Raise (FileNotFoundError (no_such_file path)), w)
    | Some Directory => (Raise (Exception (is_a_directory path)), w)
    | Some n => (Ok n, w)
    end.

(** [open(path, 'wb')]: creates or truncates the file. *)
Definition open_wb (path : string) : io unit :=
  emit (OpenWrite path) >>
  fun w =>
    match files w !! path with
    | Some Directory => (Raise (Exception (is_a_directory path)), w)
    | _ => (Ok tt, World (<[path := Corrupt "empty file"]> (files w)) (log w))
    end.

Definition put_file (path : string) (n : node) : io unit :=
  fun w => (Ok tt, World (<[path := n]> (files w)) (log w)).

(** [os.makedirs(path, exist_ok=True)]; the empty path names nothing. *)
Definition makedirs (path : string) : io unit :=
  emit (MakeDirs path) >>
  fun w =>
    match path with
    | EmptyString => (Raise (FileNotFoundError (no_such_file path)), w)
    | _ =>
        match files w !! path with
        | None => (Ok tt, World (<[path := Directory]> (files w)) (log w))
        | Some Directory => (Ok tt, w)
        | Some _ => (Raise (Exception (file_exists path)), w)
        end
    end.

Fixpoint ends_with_slash (s : string) : bool :=
  match s with
  | EmptyString => false
  | String c EmptyString => Ascii.eqb c "/"
  | String _ r => ends_with_slash r
  end.

(** [os.path.join(a, b)] on POSIX. *)
Definition path_join (a b : string) : string :=
  match b with
  | String "/" _ => b
  | _ =>
      match a with
      | EmptyString => b
      | _ => if ends_with_slash a then a +:+ b else a +:+ "/" +:+ b
      end
  end.

End Os.

Module Pypdf.
Import Lib.

(** The 32 bytes the standard security handler pads passwords with. A
    password takes part in the key as its first 32 bytes, padded from this
    string when it is shorter. *)
Definition padding : string :=
  string_of_list_ascii
    (ascii_of_nat <$>
       [40; 191; 78; 94; 78; 117; 138; 65; 100; 0; 78; 86; 255; 250; 1; 8;
        46; 46; 0; 182; 208; 104; 62; 128; 47; 12; 169; 254; 100; 83; 105;
        122]%nat).

Definition pad32 (password : string) : string :=
  String.substring 0 32 (password +:+ padding).

(** Whether [given] opens what was protected with [stored]: the two agree
    once padded. *)
Definition accepts (stored given : string) : bool :=
  String.eqb (pad32 given) (pad32 stored).

(** An encrypted document that the empty password does not open. *)
Definition locked (d : document) : bool :=
  match doc_encryption d with
  | Some (user, owner) => negb (accepts user "" || accepts owner "")
  | None => false
  end.

(** A [PdfReader]: the document read, whether its pages can be decrypted,
    and the complaint waiting in a damaged file. *)
Record reader : Type := Reader {
  reader_doc : document;
  reader_unlocked : bool;
  reader_damage : option string
}.

(** [PdfReader(stream)] for an in-memory document. The constructor tries the
    empty password on an encrypted document. *)
Definition reader_of (d : document) : reader := Reader d (negb (locked d)) None.

(** [PdfReader(path)] *)
Definition PdfReader (path : string) : io reader :=
  let! n := Os.open_rb path in
  match n with
  | PdfFile d => ret (reader_of d)
  | Corrupt complaint => raise (Exception complaint)
  | Damaged readable complaint =>
      ret (Reader (Document readable None) true (Some complaint))
  | Directory => raise (Exception (Os.is_a_directory path))
  end.

(** [reader.is_encrypted] *)
Definition is_encrypted (r : reader) : bool :=
  match doc_encryption (reader_doc r) with
  | Some _ => true
  | None => false
  end.

(** [reader.decrypt(password)]: the truth value of the returned password
    type, and the reader afterwards. *)
Definition decrypt (r : reader) (password : string) : bool * reader :=
  match doc_encryption (reader_doc r) with
  | Some (user, owner) =>
      if accepts user password || accepts owner password
      then (true, Reader (reader_doc r) true (reader_damage r))
      else (false, r)
  | None => (false, r)
  end.

(** [reader.pages], taken as a whole: refused while the document is locked,
    and failing on a damaged file. *)
Definition pages (r : reader) : io (list page) :=
  if negb (reader_unlocked r)
  then raise (Exception "File has not been decrypted")
  else
    match reader_damage r with
    | Some complaint => raise (Exception complaint)
    | None => ret (doc_pages (reader_doc r))
    end.

(** A [PdfWriter] is the document it will write. *)
Definition writer : Type := document.

Definition PdfWriter : writer := Document [] None.

Definition add_page (w : writer) (p : page) : writer :=
  Document (doc_pages w ++ [p]) (doc_encryption w).

(** [writer.encrypt(password)]: the owner password defaults to the user
    password. *)
Definition encrypt (w : writer) (password : string) : writer :=
  Document (doc_pages w) (Some (password, password)).

(** [writer.append(path)] copies the pages of the file at [path] into the
    writer one after the other. The writer is mutated in place, so the result
    is the writer afterwards together with the exception the call ended
    with, if any: a damaged file leaves its readable pages behind. *)
Definition append (w : writer) (path : string)
  : world -> (writer * option exn) * world :=
  fun st =>
    match PdfReader path st with
    | (Raise e, st') => ((w, Some e), st')
    | (Ok r, st') =>
        if negb (reader_unlocked r)
        then ((w, Some (Exception "File has not been decrypted")), st')
        else
          (Document (doc_pages w ++ doc_pages (reader_doc r))
             (doc_encryption w),
           Exception <$> reader_damage r, st')
    end.

(** [with open(path, 'wb') as output: writer.write(output)] *)
Definition write_to (path : string) (w : writer) : io unit :=
  Os.open_wb path >> Os.put_file path (PdfFile w).

(** [page.merge_page(other)]: the other page's layers go on top. *)
Definition merge_page (p other : page) : page := p ++ other.

End Pypdf.

(** reportlab's canvas, as far as [create_watermark] drives it. *)
Module Reportlab.
Import Lib.

Record gstate : Type := GState {
  font_name : string;
  font_size : Z;
  fill_gray : float;
  ctm : list xform
}.

Record canvas : Type := CanvasOf {
  state : gstate;
  saved : list gstate;
  drawn : list stamp
}.

Definition Canvas : canvas :=
  CanvasOf (GState "Helvetica" 12 0%float []) [] [].

Definition with_state (f : gstate -> gstate) (c : canvas) : canvas :=
  CanvasOf (f (state c)) (saved c) (drawn c).

Definition setFont (name : string) (size : Z) : canvas -> canvas :=
  with_state (fun g => GState name size (fill_gray g) (ctm g)).
Definition setFillGray (gray : float) : canvas -> canvas :=
  with_state (fun g => GState (font_name g) (font_size g) gray (ctm g)).
Definition translate (dx dy : Z) : canvas -> canvas :=
  with_state (fun g =>
    GState (font_name g) (font_size g) (fill_gray g)
      (ctm g ++ [Translate dx dy])).
Definition rotate (degrees : Z) : canvas -> canvas :=
  with_state (fun g =>
    GState (font_name g) (font_size g) (fill_gray g)
      (ctm g ++ [Rotate degrees])).

Definition saveState (c : canvas) : canvas :=
  CanvasOf (state c) (state c :: saved c) (drawn c).
Definition restoreState (c : canvas) : canvas :=
  match saved c with
  | g :: rest => CanvasOf g rest (drawn c)
  | [] => c
  end.

Definition drawCentredString (x y : Z) (text : string) (c : canvas) : canvas :=
  let g := state c in
  CanvasOf g (saved c)
    (drawn c ++ [Stamp text (font_name g) (font_size g) (fill_gray g)
                   (ctm g ++ [Translate x y])]).

(** [c.save()]: the one-page document holding what was drawn. *)
Definition save (c : canvas) : document :=
  Document [Drawn <$> drawn c] None.

End Reportlab.

(** How a finished script leaves the process: 0 on normal return, the code of
    a [SystemExit], 1 for an exception nobody caught. *)
Definition exit_status {A} (r : result Lib.exn A) : Z :=
  match r with
  | Ok _ => 0
  | Raise (Lib.SystemExit code) => code
  | Raise _ => 1
  end.

Definition run (script : Lib.io unit) (w : Lib.world) : Z * Lib.world :=
  let (r, w') := script w in (exit_status r, w').

(** [try: body except Exception as e: handler(e)] *)
Definition try_except {A} (body : Lib.io A) (handler : Lib.exn -> Lib.io A)
  : Lib.io A :=
  fun w =>
    match body w with
    | (Raise (Lib.SystemExit code), w') => (Raise (Lib.SystemExit code), w')
    | (Raise e, w') => handler e w'
    | (Ok a, w') => (Ok a, w')
    end.

(** [try: body except FileNotFoundError: h1 except Exception as e: h2(e)] *)
Definition try_except_fnf {A} (body : Lib.io A) (not_found : Lib.io A)
  (handler : Lib.exn -> Lib.io A) : Lib.io A :=
  try_except body
    (fun e => match e with
              | Lib.FileNotFoundError _ => not_found
              | _ => handler e
              end).

(** [try: obj.method(...) except Exception as e: handler(e)] for a method
    that changes [obj] in place: the body hands back the object as the call
    left it and the exception the call ended with, if any. *)
Definition try_method {A} (body : Lib.world -> (A * option Lib.exn) * Lib.world)
  (handler : Lib.exn -> Lib.io unit) : Lib.io A :=
  fun w =>
    match body w with
    | ((a, None), w') => (Ok a, w')
    | ((_, Some (Lib.SystemExit code)), w') => (Raise (Lib.SystemExit code), w')
    | ((a, Some e), w') => (handler e >> Lib.ret a) w'
    end.

(** [len(l)] *)
Definition len {A} (l : list A) : Z := Z.of_nat (length l).

(** [l[i]], with Python's negative indices. *)
Definition getitem {A} (l : list A) (i : Z) : Lib.io A :=
  let j := if i <? 0 then len l + i else i in
  match (if j <? 0 then None else l !! Z.to_nat j) with
  | Some a => Lib.ret a
  | None => Lib.raise (Lib.Exception "sequence index out of range")
  end.

(** ** split_pdf.py *)

Module SplitPdf.

(** The [ValueError]s that [parse_page_ranges] can raise. The first two come
    from the interpreter ([int()] on a bad literal, tuple unpacking of more
    than two pieces), the last two from the function's own [raise]s. *)
Inductive value_error : Type :=
| InvalidLiteral (literal : string)
| TooManyValues
| PageOutOfBounds (page total_pages : Z)
| RangeOutOfBounds (start end_ total_pages : Z).

(** [str(e)] for these errors. [int()] quotes at most the first 200
    characters of the literal's [repr]. *)
Definition message (e : value_error) : string :=
  match e with
  | InvalidLiteral s =>
      "invalid literal for int() with base 10: "
        +:+ String.substring 0 200 (Py.repr s)
  | TooManyValues => "too many values to unpack (expected 2)"
  | PageOutOfBounds page total_pages =>
      "Page " +:+ Py.str page +:+ " out of bounds (1-" +:+ Py.str total_pages
        +:+ ")"
  | RangeOutOfBounds start end_ total_pages =>
      "Page range " +:+ Py.str start +:+ "-" +:+ Py.str end_
        +:+ " out of bounds (1-" +:+ Py.str total_pages +:+ ")"
  end.

Definition int (s : string) : result value_error Z :=
  match Py.int s with
  | Some n => Ok n
  | None => Raise (InvalidLiteral s)
  end.

(** The body of the [for part in ...] loop: the list [pages] after the
    iteration for [part], or the error the iteration raises. *)
Definition parse_part (total_pages : Z) (pages : list Z) (part : string)
  : result value_error (list Z) :=
  if Py.contains "-" part then
    match Py.split "-" part with
    | [start; end_] =>
        let? start := int start in
        let? end_ := int end_ in
        if (start <? 1) || (end_ >? total_pages) then
          Raise (RangeOutOfBounds start end_ total_pages)
        else Ok (pages ++ Py.range start (end_ + 1))
    | _ => Raise TooManyValues (* a hyphen gives two pieces or more *)
    end
  else
    let? page := int part in
    if (page <? 1) || (page >? total_pages) then
      Raise (PageOutOfBounds page total_pages)
    else Ok (pages ++ [page]).

Fixpoint parse_parts (total_pages : Z) (pages : list Z) (parts : list string)
  : result value_error (list Z) :=
  match parts with
  | [] => Ok pages
  | part :: rest =>
      let? pages := parse_part total_pages pages part in
      parse_parts total_pages pages rest
  end.

Definition parse_page_ranges (range_str : string) (total_pages : Z)
  : result value_error (list Z) :=
  let? pages := parse_parts total_pages [] (Py.split "," range_str) in
  Ok (Py.sorted (Py.set pages)).

(** The [if pages: ... else: ...] that picks the pages to extract. [None]
    and the empty string are both false in Python. *)
Definition select_pages (pages : option string) (total_pages : Z)
  : result value_error (list Z) :=
  match pages with
  | Some (String c r) => parse_page_ranges (String c r) total_pages
  | _ => Ok (Py.range 1 (total_pages + 1))
  end.

Import Lib.

(** The body of [for page_num in page_numbers]. *)
Definition write_page (all : list page) (output_dir prefix : string)
  (page_num : Z) : io unit :=
  let writer := Pypdf.PdfWriter in
  let! page := getitem all (page_num - 1) in
  let writer := Pypdf.add_page writer page in
  let output_path :=
    Os.path_join output_dir (prefix +:+ Py.str page_num +:+ ".pdf") in
  Pypdf.write_to output_path writer >>
  print ("  Created " +:+ output_path).

Fixpoint write_pages (all : list page) (output_dir prefix : string)
  (page_numbers : list Z) : io unit :=
  match page_numbers with
  | [] => ret tt
  | page_num :: rest =>
      write_page all output_dir prefix page_num >>
      write_pages all output_dir prefix rest
  end.

Definition split_pdf (input_pdf output_dir : string) (pages : option string)
  (prefix : string) : io unit :=
  let! reader := Pypdf.PdfReader input_pdf in
  let! all := Pypdf.pages reader in
  let total_pages := len all in
  Os.makedirs output_dir >>
  let! page_numbers :=
    match select_pages pages total_pages with
    | Ok l => ret l
    | Raise e => raise (Exception (message e))
    end in
  print ("Splitting " +:+ Py.str (len page_numbers) +:+ " pages from "
         +:+ input_pdf +:+ "...") >>
  write_pages all output_dir prefix page_numbers >>
  print ("✓ Successfully split " +:+ Py.str (len page_numbers) +:+ " pages").

Record args : Type := Args {
  input : string;
  output_dir : string;
  pages : option string;
  prefix : string
}.

Definition main (a : args) : io unit :=
  try_except_fnf
    (split_pdf (input a) (output_dir a) (pages a) (prefix a))
    (print ("Error: File '" +:+ input a +:+ "' not found") >> sys_exit 1)
    (fun e => print ("Error: " +:+ exn_str e) >> sys_exit 1).

End SplitPdf.

(** ** merge_pdfs.py *)

Module MergePdfs.
Import Lib.

(** The loop [for i, pdf_file in enumerate(pdf_files)]; [n] is
    [len(pdf_files)] of the whole list and [i] the index reached. *)
Fixpoint add_files (n i : Z) (pdf_files : list string) (merger : Pypdf.writer)
  : io Pypdf.writer :=
  match pdf_files with
  | [] => ret merger
  | pdf_file :: rest =>
      print ("Adding " +:+ pdf_file +:+ " (" +:+ Py.str (i + 1) +:+ "/"
             +:+ Py.str n +:+ ")...") >>
      let! merger :=
        try_method (Pypdf.append merger pdf_file)
          (fun e =>
             print ("Warning: Failed to add " +:+ pdf_file +:+ ": "
                    +:+ exn_str e)) in
      add_files n (i + 1) rest merger
  end.

Definition merge_pdfs (pdf_files : list string) (output_path : string)
  : io unit :=
  let merger := Pypdf.PdfWriter in
  let! merger := add_files (len pdf_files) 0 pdf_files merger in
  print ("Writing merged PDF to " +:+ output_path +:+ "...") >>
  Pypdf.write_to output_path merger >>
  (* merger.close() has no effect the model can see *)
  print ("✓ Successfully merged " +:+ Py.str (len pdf_files) +:+ " files").

Record args : Type := Args {
  output : string;
  inputs : list string
}.

Definition main (a : args) : io unit :=
  (if bool_decide (output a ∈ inputs a) then
     print "Error: Output file cannot be one of the input files" >>
     sys_exit 1
   else ret tt) >>
  try_except (merge_pdfs (inputs a) (output a))
    (fun e => print ("Error: " +:+ exn_str e) >> sys_exit 1).

End MergePdfs.

(** ** protect_pdf.py *)

Module ProtectPdf.
Import Lib.

(** [for page in pages: writer.add_page(page)] *)
Definition add_pages (writer : Pypdf.writer) (ps : list page) : Pypdf.writer :=
  foldl Pypdf.add_page writer ps.

Definition encrypt_pdf (input_pdf output_pdf password : string) : io unit :=
  let! reader := Pypdf.PdfReader input_pdf in
  let writer := Pypdf.PdfWriter in
  let! ps := Pypdf.pages reader in
  print ("Encrypting " +:+ Py.str (len ps) +:+ " pages...") >>
  let writer := add_pages writer ps in
  let writer := Pypdf.encrypt writer password in
  Pypdf.write_to output_pdf writer >>
  print ("✓ PDF encrypted and saved to " +:+ output_pdf).

Definition decrypt_pdf (input_pdf output_pdf password : string) : io unit :=
  let! reader := Pypdf.PdfReader input_pdf in
  let! writer :=
    if negb (Pypdf.is_encrypted reader) then
      print "Warning: PDF is not encrypted" >>
      let writer := Pypdf.PdfWriter in
      let! ps := Pypdf.pages reader in
      ret (add_pages writer ps)
    else
      print "Decrypting PDF..." >>
      let (ok, reader) := Pypdf.decrypt reader password in
      (if negb ok then
         print "Error: Incorrect password" >> sys_exit 1
       else ret tt) >>
      let writer := Pypdf.PdfWriter in
      let! ps := Pypdf.pages reader in
      ret (add_pages writer ps) in
  Pypdf.write_to output_pdf writer >>
  print ("✓ PDF decrypted and saved to " +:+ output_pdf).

Inductive action : Type := encrypt | decrypt.

Record args : Type := Args {
  act : action;
  input : string;
  output : string;
  password : string
}.

Definition main (a : args) : io unit :=
  try_except_fnf
    (match act a with
     | encrypt => encrypt_pdf (input a) (output a) (password a)
     | decrypt => decrypt_pdf (input a) (output a) (password a)
     end)
    (print ("Error: File '" +:+ input a +:+ "' not found") >> sys_exit 1)
    (fun e => print ("Error: " +:+ exn_str e) >> sys_exit 1).

End ProtectPdf.

(** ** add_watermark.py *)

Module AddWatermark.
Import Lib.

(** Defaults of the keyword parameters of [create_watermark] and
    [add_watermark]. *)
Definition default_opacity : float := 0.5%float.
Definition default_rotation : Z := 45.
Definition default_font_size : Z := 60.

Definition create_watermark (text : string) (opacity : float)
  (rotation font_size : Z) : Pypdf.reader :=
  let c := Reportlab.Canvas in
  let c := Reportlab.setFont "Helvetica" font_size c in
  let c := Reportlab.setFillGray opacity c in
  let c := Reportlab.saveState c in
  let c := Reportlab.translate 300 400 c in
  let c := Reportlab.rotate rotation c in
  let c := Reportlab.drawCentredString 0 0 text c in
  let c := Reportlab.restoreState c in
  Pypdf.reader_of (Reportlab.save c).

(** The loop [for i, page in enumerate(reader.pages)]. *)
Fixpoint stamp_pages (total_pages i : Z) (ps : list page)
  (watermark_page : page) (writer : Pypdf.writer) : io Pypdf.writer :=
  match ps with
  | [] => ret writer
  | page :: rest =>
      print ("  Processing page " +:+ Py.str (i + 1) +:+ "/"
             +:+ Py.str total_pages +:+ "...") >>
      let page := Pypdf.merge_page page watermark_page in
      let writer := Pypdf.add_page writer page in
      stamp_pages total_pages (i + 1) rest watermark_page writer
  end.

(** [create_watermark] is called with three arguments, so its [font_size]
    takes the default. *)
Definition add_watermark (input_pdf output_pdf watermark_text : string)
  (opacity : float) (rotation : Z) : io unit :=
  let! reader := Pypdf.PdfReader input_pdf in
  let writer := Pypdf.PdfWriter in
  print ("Creating watermark: '" +:+ watermark_text +:+ "'...") >>
  let watermark :=
    create_watermark watermark_text opacity rotation default_font_size in
  let! wpages := Pypdf.pages watermark in
  let! watermark_page := getitem wpages 0 in
  let! ps := Pypdf.pages reader in
  let total_pages := len ps in
  print ("Adding watermark to " +:+ Py.str total_pages +:+ " pages...") >>
  let! writer := stamp_pages total_pages 0 ps watermark_page writer in
  print ("Writing watermarked PDF to " +:+ output_pdf +:+ "...") >>
  Pypdf.write_to output_pdf writer >>
  print ("✓ Successfully added watermark to " +:+ Py.str total_pages
         +:+ " pages").

(** The parsed command line; [--opacity], [--rotation] and [--font-size]
    default to 0.5, 45 and 60. *)
Record args : Type := Args {
  input : string;
  output : string;
  text : string;
  opacity : float;
  rotation : Z;
  font_size : Z
}.

Definition main (a : args) : io unit :=
  (if negb (PrimFloat.leb 0 (opacity a) && PrimFloat.leb (opacity a) 1) then
     print "Error: Opacity must be between 0.0 and 1.0" >> sys_exit 1
   else ret tt) >>
  try_except_fnf
    (add_watermark (input a) (output a) (text a) (opacity a) (rotation a))
    (print ("Error: File '" +:+ input a +:+ "' not found") >> sys_exit 1)
    (fun e => print ("Error: " +:+ exn_str e) >> sys_exit 1).

End AddWatermark.

(** ** Tokens of a range expression, as the specification reads them

    A token is a single integer, a [start-end] pair, or malformed: text that
    is not an integer, or a hyphen token with a missing or an extra operand.
    Integers are read the way the code reads them, with [int()]. *)

Module Token.
Import SplitPdf.

Inductive shape : Type :=
| Single (page : Z)
| Span (start end_ : Z)
| Malformed.

Definition shape_of (part : string) : shape :=
  if Py.contains "-" part then
    match Py.split "-" part with
    | [a; b] =>
        match Py.int a, Py.int b with
        | Some start, Some end_ => Span start end_
        | _, _ => Malformed
        end
    | _ => Malformed
    end
  else
    match Py.int part with
    | Some page => Single page
    | None => Malformed
    end.

Definition malformed (part : string) : bool :=
  match shape_of part with
  | Malformed => true
  | _ => false
  end.

(** More than one hyphen: the token has extra operands. *)
Definition extra_operands (part : string) : bool :=
  (2 <? length (Py.split "-" part))%nat.

Definition out_of_range (total_pages : Z) (part : string) : bool :=
  match shape_of part with
  | Single page => (page <? 1) || (page >? total_pages)
  | Span start end_ => (start <? 1) || (end_ >? total_pages)
  | Malformed => false
  end.

(** The error that names an out-of-range token and the valid bound. *)
Definition range_error (total_pages : Z) (part : string) : option value_error :=
  match shape_of part with
  | Single page => Some (PageOutOfBounds page total_pages)
  | Span start end_ => Some (RangeOutOfBounds start end_ total_pages)
  | Malformed => None
  end.

Definition is_range_error (total_pages : Z) (e : value_error) : bool :=
  match e with
  | PageOutOfBounds _ t | RangeOutOfBounds _ _ t =>
      bool_decide (t = total_pages)
  | _ => false
  end.

Definition is_parse_error (e : value_error) : bool :=
  match e with
  | InvalidLiteral _ | TooManyValues => true
  | _ => false
  end.

(** The error quotes the token, or the operand of it that is not an
    integer. *)
Definition quotes (e : value_error) (part : string) : bool :=
  match e with
  | InvalidLiteral lit => bool_decide (lit ∈ Py.split "-" part)
  | _ => false
  end.

(** The pages a well-formed, in-range token stands for. *)
Definition pages_of (part : string) : list Z :=
  match shape_of part with
  | Single page => [page]
  | Span start end_ => Py.range start (end_ + 1)
  | Malformed => []
  end.

(** Neither malformed nor out of range. *)
Definition fine (total_pages : Z) (part : string) : bool :=
  negb (malformed part) && negb (out_of_range total_pages part).

End Token.

(** ** What merging is expected to leave behind

    [appended] is what one [append] does to the merger: the pages it adds
    and the exception it ends with, if any. An input loads when its [append]
    raises nothing. A file that is missing, a directory, unparseable or
    locked fails before any page is added; a damaged file fails after its
    readable pages are in. [merged_pages] is what the merger holds after the
    loop and [loaded_pages] the pages of the inputs that loaded; [merge_log]
    is what the loop prints and opens on the way: one "Adding" line and one
    read per input, and one warning per input that fails. *)

Module Merging.
Import Lib.

Definition appended (fs : gmap string node) (path : string)
  : list page * option exn :=
  match fs !! path with
  | None => ([], Some (FileNotFoundError (Os.no_such_file path)))
  | Some Directory => ([], Some (Exception (Os.is_a_directory path)))
  | Some (Corrupt complaint) => ([], Some (Exception complaint))
  | Some (Damaged readable complaint) => (readable, Some (Exception complaint))
  | Some (PdfFile d) =>
      if Pypdf.locked d
      then ([], Some (Exception "File has not been decrypted"))
      else (doc_pages d, None)
  end.


(** The pages in the merger after the loop, in argument order. *)
Definition merged_pages (fs : gmap string node) (pdf_files : list string)
  : list page :=
  concat ((fun f => (appended fs f).1) <$> pdf_files).


Definition warning (pdf_file : string) (e : exn) : event :=
  Print ("Warning: Failed to add " +:+ pdf_file +:+ ": " +:+ exn_str e).

Fixpoint merge_log (fs : gmap string node) (n i : Z) (pdf_files : list string)
  : list event :=
  match pdf_files with
  | [] => []
  | f :: rest =>
      [Print ("Adding " +:+ f +:+ " (" +:+ Py.str (i + 1) +:+ "/"
              +:+ Py.str n +:+ ")..."); OpenRead f]
      ++ match (appended fs f).2 with
         | None => []
         | Some e => [warning f e]
         end
      ++ merge_log fs n (i + 1) rest
  end.




End Merging.

(** ** What splitting is expected to leave behind

    [target] is the path of the file for a page number, [single] the
    one-page document written there, and [written] the file system after the
    files for a list of page numbers have been written, in that order. *)

Module Splitting.
Import Lib.

Definition target (output_dir prefix : string) (page_num : Z) : string :=
  Os.path_join output_dir (prefix +:+ Py.str page_num +:+ ".pdf").

Definition single (all : list page) (page_num : Z) : node :=
  PdfFile (Document (option_list (all !! Z.to_nat (page_num - 1))) None).

Definition written (all : list page) (output_dir prefix : string)
  (fs : gmap string node) (page_numbers : list Z) : gmap string node :=
  foldl (fun fs p => <[target output_dir prefix p := single all p]> fs)
    fs page_numbers.

Definition page_log (output_dir prefix : string) (page_num : Z) : list event :=
  [OpenWrite (target output_dir prefix page_num);
   Print ("  Created " +:+ target output_dir prefix page_num)].

(** What [os.path.join] puts in front of a file name that does not start
    with a slash. *)
Definition join_base (output_dir : string) : string :=
  match output_dir with
  | EmptyString => EmptyString
  | _ => if Os.ends_with_slash output_dir then output_dir
         else output_dir +:+ "/"
  end.

(** The part of a target path in front of the page number. *)
Definition target_base (output_dir prefix : string) : string :=
  match prefix with
  | String c _ =>
      if Ascii.eqb c "/" then prefix else join_base output_dir +:+ prefix
  | EmptyString => join_base output_dir
  end.

End Splitting.

(** ** fill_form.py: field arguments *)

Module FillForm.
Import Lib.

(** [s.split(sep, 1)] for a one-character separator: the text before the
    first separator and the text after it, or the whole text alone. *)
Fixpoint split1 (sep : ascii) (s : string) : list string :=
  match s with
  | EmptyString => [EmptyString]
  | String c r =>
      if Ascii.eqb c sep then [EmptyString; r]
      else match split1 sep r with
           | h :: t => String c h :: t
           | [] => [String c EmptyString]
           end
  end.

(** The loop of [parse_field_args]; [field_data] is the dict built so far. *)
Fixpoint parse_fields (field_args : list string)
  (field_data : gmap string string) : io (gmap string string) :=
  match field_args with
  | [] => ret field_data
  | field_arg :: rest =>
      (if negb (Py.contains "=" field_arg) then
         print ("Error: Invalid field format '" +:+ field_arg
                +:+ "'. Use: name=value") >>
         sys_exit 1
       else ret tt) >>
      match split1 "=" field_arg with
      | [name; value] => parse_fields rest (<[name := value]> field_data)
      | _ => raise (Exception "not enough values to unpack (expected 2, got 1)")
      end
  end.

Definition parse_field_args (field_args : list string)
  : io (gmap string string) :=
  parse_fields field_args ∅.

End FillForm.

(** ** extract_tables.py

    pdfplumber and csv are outside the repository. A page is given by the
    tables the library finds on it, with and without settings; a file is a
    PDF, a CSV file with its rows, something else, or a directory. *)

Module ExtractTables.

(** *** The environment *)

(** The rows of a table; a cell without text is [None]. *)
Definition table : Type := list (list (option string)).

Inductive strategy : Type := lines | text.

(** The [table_settings] dict that [main] builds. *)
Record settings : Type := Settings {
  vertical_strategy : strategy;
  horizontal_strategy : strategy
}.

(** What [page.extract_tables(settings)] and [page.extract_tables()]
    return. *)
Record page : Type := Page {
  tables_with : settings -> list table;
  tables_plain : list table
}.

Inductive node : Type :=
| Pdf (pages : list page)
| Csv (rows : table)
| NotPdf (complaint : string)
| Directory.

Record world : Type := World {
  files : gmap string node;
  stderr : list string
}.

Definition io (A : Type) : Type := world -> result Lib.exn A * world.

Definition ret {A} (a : A) : io A := fun w => (Ok a, w).
Definition raise {A} (e : Lib.exn) : io A := fun w => (Raise e, w).
Definition bind {A B} (m : io A) (k : A -> io B) : io B :=
  fun w =>
    match m w with
    | (Ok a, w') => k a w'
    | (Raise e, w') => (Raise e, w')
    end.

Notation "'let&' x ':=' m 'in' k" := (bind m (fun x => k))
  (at level 10, x name, m at level 100, k at level 200).
Notation "m '>>>' k" := (bind m (fun _ => k))
  (at level 100, k at level 200, right associativity).

(** [print(line, file=sys.stderr)] *)
Definition print (line : string) : io unit :=
  fun w => (Ok tt, World (files w) (stderr w ++ [line])).

(** [pdfplumber.open(path)] *)
Definition open_pdf (path : string) : io (list page) :=
  fun w =>
    match files w !! path with
    | None => (Raise (Lib.FileNotFoundError (Os.no_such_file path)), w)
    | Some (Pdf pages) => (Ok pages, w)
    | Some (Csv _) =>
        (Raise (Lib.Exception "No /Root object! - Is this really a PDF?"), w)
    | Some (NotPdf complaint) => (Raise (Lib.Exception complaint), w)
    | Some Directory => (Raise (Lib.Exception (Os.is_a_directory path)), w)
    end.

(** [with open(path, 'w', ...) as f: csv.writer(f).writerows(rows)] *)
Definition write_csv (path : string) (rows : table) : io unit :=
  fun w =>
    match files w !! path with
    | Some Directory => (Raise (Lib.Exception (Os.is_a_directory path)), w)
    | _ => (Ok tt, World (<[path := Csv rows]> (files w)) (stderr w))
    end.

(** [l[i]] for a list, with Python's negative indices. *)
Definition item {A} (l : list A) (i : Z) : io A :=
  let j := if i <? 0 then len l + i else i in
  match (if j <? 0 then None else l !! Z.to_nat j) with
  | Some a => ret a
  | None => raise (Lib.Exception "list index out of range")
  end.

(** *** The script *)

(** A dict that is [None] or empty counts as false; [Some] stands for a
    dict with entries. *)
Definition extract_tables_from_page (p : page) (table_settings : option settings)
  : list table :=
  match table_settings with
  | Some s => tables_with p s
  | None => tables_plain p
  end.

(** The loop [for i, page in enumerate(pdf.pages)]; [n] is
    [len(pdf.pages)]. *)
Fixpoint each_page (n i : Z) (pages : list page)
  (table_settings : option settings) (all_tables : list table)
  : io (list table) :=
  match pages with
  | [] => ret all_tables
  | p :: rest =>
      print ("Processing page " +:+ Py.str (i + 1) +:+ "/" +:+ Py.str n
             +:+ "...") >>>
      let tables := extract_tables_from_page p table_settings in
      let& all_tables :=
        match tables with
        | [] => ret all_tables
        | _ =>
            print ("  Found " +:+ Py.str (len tables) +:+ " table(s)") >>>
            ret (all_tables ++ tables)
        end in
      each_page n (i + 1) rest table_settings all_tables
  end.

Definition extract_tables (pdf_path : string) (page_num : option Z)
  (all_pages : bool) (table_settings : option settings) : io (list table) :=
  let all_tables : list table := [] in
  let& pdf := open_pdf pdf_path in
  match page_num with
  | Some page_num =>
      if (page_num <? 1) || (page_num >? len pdf) then
        raise (Lib.Exception
                 ("Page " +:+ Py.str page_num +:+ " out of range (1-"
                  +:+ Py.str (len pdf) +:+ ")"))
      else
        print ("Extracting tables from page " +:+ Py.str page_num +:+ "...") >>>
        let& p := item pdf (page_num - 1) in
        ret (all_tables ++ extract_tables_from_page p table_settings)
  | None =>
      if all_pages then each_page (len pdf) 0 pdf table_settings all_tables
      else
        print "Extracting tables from first page..." >>>
        let& p := item pdf 0 in
        ret (all_tables ++ extract_tables_from_page p table_settings)
  end.

Definition save_tables_to_csv (tables : list table) (output_path : string)
  : io unit :=
  match tables with
  | [] => print "Warning: No tables found"
  | table :: _ =>
      write_csv output_path table >>>
      print ("✓ Saved " +:+ Py.str (len table) +:+ " rows to " +:+ output_path) >>>
      if len tables >? 1 then
        print ("Note: Found " +:+ Py.str (len tables)
               +:+ " tables, saved first one only")
      else ret tt
  end.

(** The parsed command line; [--page] is absent or an int, [--strategy]
    defaults to [lines]. *)
Record args : Type := Args {
  input : string;
  output : string;
  page_arg : option Z;
  all_pages : bool;
  strategy_arg : strategy
}.

Definition sys_exit {A} (code : Z) : io A := raise (Lib.SystemExit code).

Definition main (a : args) : io unit :=
  fun w =>
    let body :=
      let table_settings := Settings (strategy_arg a) (strategy_arg a) in
      let& tables :=
        extract_tables (input a) (page_arg a) (all_pages a)
          (Some table_settings) in
      save_tables_to_csv tables (output a) in
    match body w with
    | (Raise (Lib.SystemExit code), w') => (Raise (Lib.SystemExit code), w')
    | (Raise (Lib.FileNotFoundError _), w') =>
        (print ("Error: File '" +:+ input a +:+ "' not found") >>> sys_exit 1) w'
    | (Raise e, w') =>
        (print ("Error: " +:+ Lib.exn_str e) >>> sys_exit 1) w'
    | (Ok tt, w') => (Ok tt, w')
    end.

Definition run (script : io unit) (w : world) : Z * world :=
  let (r, w') := script w in (exit_status r, w').

End ExtractTables.

(** ** Sanity checks on the built-ins *)

Example split_commas : Py.split "," "1-3,5,7-9" = ["1-3"; "5"; "7-9"].
Proof. reflexivity. Qed.
Example split_empty : Py.split "," "" = [""].
Proof. reflexivity. Qed.
Example split_trailing : Py.split "-" "3-" = ["3"; ""].
Proof. reflexivity. Qed.
Example int_plain : Py.int "42" = Some 42.
Proof. reflexivity. Qed.
Example int_spaces : Py.int " +0_7 " = Some 7.
Proof. reflexivity. Qed.
Example int_bad_underscore : Py.int "1__0" = None.
Proof. reflexivity. Qed.
Example int_empty : Py.int "" = None.
Proof. reflexivity. Qed.
Example range_3_6 : Py.range 3 6 = [3; 4; 5].
Proof. reflexivity. Qed.
Example range_rev : Py.range 2 2 = [].
Proof. reflexivity. Qed.
Example sorted_set : Py.sorted (Py.set [3; 1; 3; 2]) = [1; 2; 3].
Proof. vm_compute. reflexivity. Qed.
Example str_12 : Py.str 120 = "120".
Proof. reflexivity. Qed.
Example repr_x : Py.repr "x" = "'x'".
Proof. reflexivity. Qed.

Example resolve_ex1 :
  SplitPdf.parse_page_ranges "1-3,5,7-9" 10 = Ok [1; 2; 3; 5; 7; 8; 9].
Proof. vm_compute. reflexivity. Qed.
Example resolve_ex2 :
  SplitPdf.parse_page_ranges "5" 3 = Raise (SplitPdf.PageOutOfBounds 5 3).
Proof. vm_compute. reflexivity. Qed.
Example resolve_ex3 : SplitPdf.parse_page_ranges "2-1" 5 = Ok [].
Proof. vm_compute. reflexivity. Qed.
Example resolve_ex4 : SplitPdf.parse_page_ranges "3,1-2,2 ,3" 5 = Ok [1;2;3].
Proof. vm_compute. reflexivity. Qed.
Example message_ex :
  SplitPdf.message (SplitPdf.RangeOutOfBounds 0 7 5)
  = "Page range 0-7 out of bounds (1-5)".
Proof. vm_compute. reflexivity. Qed.

(** The environment: a password counts up to its 32nd byte, an empty user
    password locks nothing, and the empty path cannot be made a directory. *)
Example accepts_long_password :
  Pypdf.accepts "aaaaaaaaaaaaaaaaaaaaaaaaaaaaaaaa"
    "aaaaaaaaaaaaaaaaaaaaaaaaaaaaaaaab" = true.
Proof. vm_compute. reflexivity. Qed.
Example accepts_prefix : Pypdf.accepts "secret" "secre" = false.
Proof. vm_compute. reflexivity. Qed.
Example empty_user_password_opens :
  Pypdf.locked (Lib.Document [] (Some ("", "owner"))) = false.
Proof. vm_compute. reflexivity. Qed.
Example user_password_locks :
  Pypdf.locked (Lib.Document [] (Some ("secret", "secret"))) = true.
Proof. vm_compute. reflexivity. Qed.
Example makedirs_empty_path :
  Os.makedirs "" (Lib.World ∅ [])
  = (Raise (Lib.FileNotFoundError "[Errno 2] No such file or directory: ''"),
     Lib.World ∅ [Lib.MakeDirs ""]).
Proof. vm_compute. reflexivity. Qed.
Example append_damaged :
  Pypdf.append Pypdf.PdfWriter "b.pdf"
    (Lib.World (<["b.pdf" := Lib.Damaged [[Lib.Content 7]] "broken"]> ∅) [])
  = ((Lib.Document [[Lib.Content 7]] None, Some (Lib.Exception "broken")),
     Lib.World (<["b.pdf" := Lib.Damaged [[Lib.Content 7]] "broken"]> ∅)
       [Lib.OpenRead "b.pdf"]).
Proof. vm_compute. reflexivity. Qed.

(** ** Facts about the built-ins *)

Section PyFacts.

Lemma elem_of_range (x a b : Z) : x ∈ Py.range a b <-> a <= x < b.
Proof.
  unfold Py.range. rewrite list_elem_of_fmap. split.
  - intros (i & -> & Hi). apply elem_of_seq in Hi. lia.
  - intros Hx. exists (Z.to_nat (x - a)). split; [lia|].
    apply elem_of_seq. lia.
Qed.

Lemma range_empty (a b : Z) : b <= a -> Py.range a b = [].
Proof.
  intros Hba. unfold Py.range.
  replace (Z.to_nat (b - a)) with 0%nat by lia. reflexivity.
Qed.

Lemma range_from_one (n : nat) :
  Py.range 1 (Z.of_nat n + 1) = Z.of_nat <$> seq 1 n.
Proof.
  unfold Py.range. replace (Z.to_nat (Z.of_nat n + 1 - 1)) with n by lia.
  rewrite <- (fmap_S_seq 0 n), <- list_fmap_compose.
  apply list_fmap_ext. intros _ i _. simpl. lia.
Qed.

Lemma elem_of_sorted_set (x : Z) (l : list Z) :
  x ∈ Py.sorted (Py.set l) <-> x ∈ l.
Proof.
  unfold Py.sorted, Py.set.
  rewrite merge_sort_Permutation, elem_of_elements, elem_of_list_to_set.
  reflexivity.
Qed.

Lemma NoDup_sorted (s : gset Z) : NoDup (Py.sorted s).
Proof.
  unfold Py.sorted. rewrite merge_sort_Permutation. apply NoDup_elements.
Qed.

Lemma Sorted_sorted (s : gset Z) : StronglySorted Z.le (Py.sorted s).
Proof. unfold Py.sorted. apply StronglySorted_merge_sort; apply _. Qed.

(** A duplicate-free ascending list is strictly ascending. *)
Lemma StronglySorted_le_lt (l : list Z) :
  StronglySorted Z.le l -> NoDup l -> StronglySorted Z.lt l.
Proof.
  induction 1 as [|x l Hl IH Hx]; intros Hnd; [constructor|].
  apply NoDup_cons in Hnd as [Hnotin Hnd].
  constructor; [auto|].
  apply Forall_forall. intros y Hy.
  assert (x <= y) by (rewrite Forall_forall in Hx; auto).
  assert (x <> y) by (intros ->; apply Hnotin, Hy).
  lia.
Qed.

Lemma split_no_sep (c : ascii) (s : string) :
  Py.contains c s = false -> Py.split c s = [s].
Proof.
  induction s as [|d r IH]; simpl; [reflexivity|].
  destruct (Ascii.eqb d c); [discriminate|].
  intros Hr. rewrite (IH Hr). reflexivity.
Qed.

Lemma split_nonempty (c : ascii) (s : string) : Py.split c s <> [].
Proof.
  destruct s as [|d r]; simpl; [discriminate|].
  destruct (Ascii.eqb d c); [discriminate|].
  destruct (Py.split c r); discriminate.
Qed.

Lemma split_two_contains (c : ascii) (s a b : string) :
  Py.split c s = [a; b] -> Py.contains c s = true.
Proof.
  intros Hs. destruct (Py.contains c s) eqn:Hc; [reflexivity|].
  rewrite (split_no_sep _ _ Hc) in Hs. discriminate.
Qed.

Lemma split_contains_length (c : ascii) (s : string) :
  Py.contains c s = true -> (2 <= length (Py.split c s))%nat.
Proof.
  induction s as [|d r IH]; simpl; [discriminate|].
  destruct (Ascii.eqb d c).
  - intros _. pose proof (split_nonempty c r).
    destruct (Py.split c r); [congruence|simpl; lia].
  - intros Hr. specialize (IH Hr).
    destruct (Py.split c r); simpl in *; lia.
Qed.







End PyFacts.

(** ** The loop of [parse_page_ranges], token by token *)

Section ParseFacts.
Import SplitPdf Token.

Variable total_pages : Z.

(** What one iteration does, by the shape of its token. *)
Lemma parse_part_shape (pages : list Z) (part : string) :
  match shape_of part with
  | Single page =>
      parse_part total_pages pages part =
        if out_of_range total_pages part
        then Raise (PageOutOfBounds page total_pages)
        else Ok (pages ++ [page])
  | Span start end_ =>
      parse_part total_pages pages part =
        if out_of_range total_pages part
        then Raise (RangeOutOfBounds start end_ total_pages)
        else Ok (pages ++ Py.range start (end_ + 1))
  | Malformed =>
      exists e, parse_part total_pages pages part = Raise e
                /\ is_parse_error e = true
                /\ if extra_operands part then e = TooManyValues
                   else quotes e part = true
  end.
Proof.
  unfold out_of_range, extra_operands, quotes, parse_part, shape_of, int.
  destruct (Py.contains "-" part) eqn:Hc.
  - pose proof (split_contains_length _ _ Hc) as Hlen.
    destruct (Py.split "-" part) as [|a [|b [|c rest]]] eqn:Hs;
      simpl in Hlen; try lia.
    + destruct (Py.int a) as [start|] eqn:Ha; simpl.
      * destruct (Py.int b) as [end_|] eqn:Hb; simpl.
        -- reflexivity.
        -- eexists; split; [reflexivity|split; [reflexivity|]].
           simpl. apply bool_decide_eq_true. set_solver.
      * destruct (Py.int b); exists (InvalidLiteral a);
          (split; [reflexivity|split; [reflexivity|]]);
          simpl; apply bool_decide_eq_true; set_solver.
    + eexists; split; [reflexivity|split; reflexivity].
  - rewrite (split_no_sep _ _ Hc).
    destruct (Py.int part) as [page|] eqn:Hp; simpl.
    + reflexivity.
    + eexists; split; [reflexivity|split; [reflexivity|]].
      simpl. apply bool_decide_eq_true. set_solver.
Qed.

Lemma token_cases (part : string) :
  fine total_pages part = true
  \/ out_of_range total_pages part = true
  \/ malformed part = true.
Proof.
  unfold fine. destruct (malformed part), (out_of_range total_pages part);
    simpl; auto.
Qed.

Lemma parse_part_fine (pages : list Z) (part : string) :
  fine total_pages part = true ->
  parse_part total_pages pages part = Ok (pages ++ pages_of part).
Proof.
  unfold fine, malformed, pages_of. intros [Hm Ho]%andb_true_iff.
  apply negb_true_iff in Ho.
  pose proof (parse_part_shape pages part) as H.
  destruct (shape_of part); [| |discriminate]; rewrite Ho in H; exact H.
Qed.

Lemma parse_part_out_of_range (pages : list Z) (part : string) :
  out_of_range total_pages part = true ->
  exists e, range_error total_pages part = Some e
            /\ parse_part total_pages pages part = Raise e
            /\ is_range_error total_pages e = true.
Proof.
  intros Ho. pose proof (parse_part_shape pages part) as H.
  unfold range_error. rewrite Ho in H.
  destruct (shape_of part) eqn:Hs.
  - eexists; split; [reflexivity|split; [exact H|]].
    simpl. apply bool_decide_eq_true. reflexivity.
  - eexists; split; [reflexivity|split; [exact H|]].
    simpl. apply bool_decide_eq_true. reflexivity.
  - unfold out_of_range in Ho. rewrite Hs in Ho. discriminate.
Qed.

Lemma parse_part_malformed (pages : list Z) (part : string) :
  malformed part = true ->
  exists e, parse_part total_pages pages part = Raise e
            /\ is_parse_error e = true
            /\ if extra_operands part then e = TooManyValues
               else quotes e part = true.
Proof.
  unfold malformed. intros Hm.
  pose proof (parse_part_shape pages part) as H.
  destruct (shape_of part); try discriminate. exact H.
Qed.

Lemma pages_of_in_range (part : string) (x : Z) :
  fine total_pages part = true -> x ∈ pages_of part -> 1 <= x <= total_pages.
Proof.
  unfold fine, malformed, out_of_range, pages_of.
  destruct (shape_of part); simpl; try discriminate.
  - intros H Hx. apply list_elem_of_singleton in Hx. lia.
  - intros H Hx. apply elem_of_range in Hx. lia.
Qed.

(** The pages of a list of tokens, in the order they are accumulated. *)
Lemma parse_parts_fine (pages : list Z) (before rest : list string) :
  Forall (fun t => fine total_pages t = true) before ->
  parse_parts total_pages pages (before ++ rest) =
  parse_parts total_pages (pages ++ concat (pages_of <$> before)) rest.
Proof.
  intros Hb. revert pages.
  induction Hb as [|t before Ht _ IH]; intros pages; simpl.
  - rewrite app_nil_r. reflexivity.
  - rewrite (parse_part_fine _ _ Ht). simpl.
    rewrite IH, <- app_assoc. reflexivity.
Qed.

(** The loop succeeds exactly on lists of fine tokens. *)
Lemma parse_parts_ok (pages : list Z) (parts : list string) (l : list Z) :
  parse_parts total_pages pages parts = Ok l <->
  Forall (fun t => fine total_pages t = true) parts
  /\ l = pages ++ concat (pages_of <$> parts).
Proof.
  split.
  - revert pages. induction parts as [|t parts IH]; intros pages; simpl.
    + intros [= <-]. rewrite app_nil_r. auto.
    + destruct (token_cases t) as [Hf|[Ho|Hm]].
      * rewrite (parse_part_fine _ _ Hf). simpl. intros H.
        apply IH in H as [Hparts ->]. rewrite <- app_assoc. auto.
      * destruct (parse_part_out_of_range pages t Ho) as (e & _ & -> & _).
        discriminate.
      * destruct (parse_part_malformed pages t Hm) as (e & -> & _).
        discriminate.
  - intros [Hparts ->].
    rewrite <- (app_nil_r parts) at 1.
    rewrite parse_parts_fine by exact Hparts. reflexivity.
Qed.

Lemma parse_parts_raises (pages : list Z) (parts : list string)
  (part : string) :
  part ∈ parts -> fine total_pages part = false ->
  exists e, parse_parts total_pages pages parts = Raise e.
Proof.
  intros Hin Hnf.
  destruct (parse_parts total_pages pages parts) as [l|e] eqn:Hp; [|eauto].
  apply parse_parts_ok in Hp as [Hall _].
  rewrite Forall_forall in Hall. rewrite (Hall _ Hin) in Hnf. discriminate.
Qed.


(** With no out-of-range token ahead of it, a malformed token makes the
    loop stop on a parse error. *)
Lemma parse_parts_parse_error (pages : list Z) (before after : list string)
  (part : string) :
  Forall (fun t => out_of_range total_pages t = false) before ->
  malformed part = true ->
  exists e, parse_parts total_pages pages (before ++ part :: after) = Raise e
            /\ is_parse_error e = true.
Proof.
  intros Hb Hm. revert pages.
  induction Hb as [|t before Ht _ IH]; intros pages; simpl.
  - destruct (parse_part_malformed pages part Hm) as (e & -> & He & _).
    eauto.
  - destruct (token_cases t) as [Hf|[Hot|Hmt]]; [|congruence|].
    + rewrite (parse_part_fine _ _ Hf). simpl. apply IH.
    + destruct (parse_part_malformed pages t Hmt) as (e & -> & He & _).
      eauto.
Qed.

End ParseFacts.

(** [parse_page_ranges] passes the error of the loop on unchanged. *)
Lemma parse_page_ranges_raise (range_str : string) (total_pages : Z)
  (e : SplitPdf.value_error) :
  SplitPdf.parse_parts total_pages [] (Py.split "," range_str) = Raise e ->
  SplitPdf.parse_page_ranges range_str total_pages = Raise e.
Proof. unfold SplitPdf.parse_page_ranges. intros ->. reflexivity. Qed.

Lemma parse_page_ranges_ok (range_str : string) (total_pages : Z) (l : list Z) :
  SplitPdf.parse_page_ranges range_str total_pages = Ok l <->
  Forall (fun t => Token.fine total_pages t = true) (Py.split "," range_str)
  /\ l = Py.sorted
           (Py.set (concat (Token.pages_of <$> Py.split "," range_str))).
Proof.
  unfold SplitPdf.parse_page_ranges.
  destruct (SplitPdf.parse_parts total_pages [] (Py.split "," range_str))
    as [pages|e] eqn:Hp; simpl.
  - apply parse_parts_ok in Hp as [Hall ->]. simpl. split.
    + intros [= <-]. auto.
    + intros [_ ->]. reflexivity.
  - split; [discriminate|]. intros [Hall _].
    assert (SplitPdf.parse_parts total_pages [] (Py.split "," range_str)
            = Ok ([] ++ concat (Token.pages_of <$> Py.split "," range_str)))
      as Hok by (apply parse_parts_ok; auto).
    congruence.
Qed.


(** ** The page-range resolver *)

(** C1: whenever [parse_page_ranges] returns a list (for any expression and
    any page count, in particular every page count of at least 1), every
    number in it lies in [1, total_pages], no number occurs twice, and the
    list is ascending: non-decreasing, and in fact strictly increasing. *)
Theorem resolved_page_set_invariant (range_str : string) (total_pages : Z)
  (l : list Z) :
  SplitPdf.parse_page_ranges range_str total_pages = Ok l ->
  Forall (fun p => 1 <= p <= total_pages) l
  /\ NoDup l
  /\ Sorted Z.le l
  /\ StronglySorted Z.lt l.
Proof.
  intros [Hfine ->]%parse_page_ranges_ok.
  split; [|split; [|split]].
  - apply Forall_forall. intros x Hx.
    apply elem_of_sorted_set, list_elem_of_In, in_concat in Hx
      as (ps & Hps & Hx).
    apply list_elem_of_In, list_elem_of_fmap in Hps as (t & -> & Ht).
    rewrite Forall_forall in Hfine.
    eapply pages_of_in_range; [apply Hfine, Ht|apply list_elem_of_In, Hx].
  - apply NoDup_sorted.
  - apply StronglySorted_Sorted, Sorted_sorted.
  - apply StronglySorted_le_lt; [apply Sorted_sorted|apply NoDup_sorted].
Qed.

Lemma resolved_page_set_invariant_witness :
  SplitPdf.parse_page_ranges "7-9,5,1-3,2" 10 = Ok [1; 2; 3; 5; 7; 8; 9]
  /\ Forall (fun p => 1 <= p <= 10) [1; 2; 3; 5; 7; 8; 9]
  /\ NoDup [1; 2; 3; 5; 7; 8; 9]
  /\ Sorted Z.le [1; 2; 3; 5; 7; 8; 9]
  /\ StronglySorted Z.lt [1; 2; 3; 5; 7; 8; 9].
Proof.
  assert (SplitPdf.parse_page_ranges "7-9,5,1-3,2" 10 = Ok [1; 2; 3; 5; 7; 8; 9])
    as H by (vm_compute; reflexivity).
  split; [exact H|].
  exact (resolved_page_set_invariant "7-9,5,1-3,2" 10 _ H).
Defined.

(** C2: resolving "1-3,5,7-9" against 10 pages succeeds with
    [1,2,3,5,7,8,9]: the expression splits on commas into three tokens, the
    loop accumulates 1..3, then 5, then 7..9, and the accumulated numbers are
    deduplicated and sorted. The last step holds for every expression:
    whatever list the loop accumulates, the result is strictly ascending and
    holds exactly the numbers of that list, and an error of the loop is
    passed on. So "3,1-2,2 ,3" with 5 pages, where the loop accumulates
    [3,1,2,2,3], resolves to [1,2,3]. *)
Theorem resolve_1_3_5_7_9 :
  Py.split "," "1-3,5,7-9" = ["1-3"; "5"; "7-9"]
  /\ SplitPdf.parse_part 10 [] "1-3" = Ok [1; 2; 3]
  /\ SplitPdf.parse_part 10 [1; 2; 3] "5" = Ok [1; 2; 3; 5]
  /\ SplitPdf.parse_part 10 [1; 2; 3; 5] "7-9" = Ok [1; 2; 3; 5; 7; 8; 9]
  /\ Py.sorted (Py.set [1; 2; 3; 5; 7; 8; 9]) = [1; 2; 3; 5; 7; 8; 9]
  /\ SplitPdf.parse_page_ranges "1-3,5,7-9" 10 = Ok [1; 2; 3; 5; 7; 8; 9]
  /\ (forall range_str total_pages pages,
        SplitPdf.parse_parts total_pages [] (Py.split "," range_str) = Ok pages ->
        exists l,
          SplitPdf.parse_page_ranges range_str total_pages = Ok l
          /\ StronglySorted Z.lt l
          /\ forall x, x ∈ l <-> x ∈ pages)
  /\ (forall range_str total_pages e,
        SplitPdf.parse_parts total_pages [] (Py.split "," range_str) = Raise e ->
        SplitPdf.parse_page_ranges range_str total_pages = Raise e)
  /\ SplitPdf.parse_parts 5 [] (Py.split "," "3,1-2,2 ,3") = Ok [3; 1; 2; 2; 3]
  /\ SplitPdf.parse_page_ranges "3,1-2,2 ,3" 5 = Ok [1; 2; 3].
Proof.
  do 6 (split; [vm_compute; reflexivity|]).
  split; [|split; [|split; vm_compute; reflexivity]].
  - intros range_str total_pages pages Hp.
    exists (Py.sorted (Py.set pages)).
    unfold SplitPdf.parse_page_ranges. rewrite Hp. split; [reflexivity|split].
    + apply StronglySorted_le_lt; [apply Sorted_sorted|apply NoDup_sorted].
    + intros x. apply elem_of_sorted_set.
  - intros range_str total_pages e. apply parse_page_ranges_raise.
Qed.

Lemma resolve_1_3_5_7_9_witness :
  exists l,
    SplitPdf.parse_page_ranges "3,1-2,2 ,3" 5 = Ok l
    /\ StronglySorted Z.lt l
    /\ forall x, x ∈ l <-> x ∈ [3; 1; 2; 2; 3].
Proof.
  destruct resolve_1_3_5_7_9 as (_ & _ & _ & _ & _ & _ & H & _).
  apply (H "3,1-2,2 ,3" 5). vm_compute. reflexivity.
Defined.

(** C4: a [start-end] token that passes the range check but has
    [start > end] leaves the accumulated pages as they are and raises
    nothing: the expression resolves as if the token were absent, and the
    token alone resolves to the empty list. *)
Theorem degenerate_range_contributes_nothing (total_pages : Z)
  (part a b : string) (start end_ : Z) :
  Py.split "-" part = [a; b] ->
  Py.int a = Some start ->
  Py.int b = Some end_ ->
  1 <= start ->
  end_ <= total_pages ->
  end_ < start ->
  (forall pages, SplitPdf.parse_part total_pages pages part = Ok pages)
  /\ (forall pages before after,
        SplitPdf.parse_parts total_pages pages (before ++ part :: after) =
        SplitPdf.parse_parts total_pages pages (before ++ after))
  /\ (forall range_str,
        Py.split "," range_str = [part] ->
        SplitPdf.parse_page_ranges range_str total_pages = Ok []).
Proof.
  intros Hs Ha Hb Hstart Hend Hdeg.
  assert (Token.shape_of part = Token.Span start end_) as Hshape.
  { unfold Token.shape_of.
    rewrite (split_two_contains _ _ _ _ Hs), Hs, Ha, Hb. reflexivity. }
  assert (Token.fine total_pages part = true) as Hfine.
  { unfold Token.fine, Token.malformed, Token.out_of_range. rewrite Hshape.
    simpl. apply negb_true_iff, orb_false_iff. lia. }
  assert (Token.pages_of part = []) as Hnone.
  { unfold Token.pages_of. rewrite Hshape. apply range_empty. lia. }
  assert (forall pages, SplitPdf.parse_part total_pages pages part = Ok pages)
    as Hpart.
  { intros pages. rewrite (parse_part_fine _ _ _ Hfine), Hnone.
    rewrite app_nil_r. reflexivity. }
  split; [exact Hpart|split].
  - intros pages before. revert pages.
    induction before as [|t before IH]; intros pages after; simpl.
    + rewrite Hpart. reflexivity.
    + destruct (SplitPdf.parse_part total_pages pages t); simpl; [apply IH|].
      reflexivity.
  - intros range_str Hsplit. unfold SplitPdf.parse_page_ranges.
    rewrite Hsplit. simpl. rewrite Hpart. reflexivity.
Qed.

Lemma degenerate_range_contributes_nothing_witness :
  SplitPdf.parse_page_ranges "2-1" 5 = Ok []
  /\ SplitPdf.parse_page_ranges "4,2-1,1" 5 = SplitPdf.parse_page_ranges "4,1" 5.
Proof.
  assert (Py.split "-" "2-1" = ["2"; "1"]) as Hs by reflexivity.
  assert (Py.int "2" = Some 2) as Ha by reflexivity.
  assert (Py.int "1" = Some 1) as Hb by reflexivity.
  destruct (degenerate_range_contributes_nothing 5 "2-1" "2" "1" 2 1
              Hs Ha Hb ltac:(lia) ltac:(lia) ltac:(lia)) as (_ & Hskip & Halone).
  split.
  - apply Halone. reflexivity.
  - unfold SplitPdf.parse_page_ranges.
    change (Py.split "," "4,2-1,1") with (["4"] ++ "2-1" :: ["1"]).
    rewrite Hskip. reflexivity.
Defined.




(** C5, as the specification states it, fails in two ways. The token
    "1-2-3" has an extra operand: the error is the unpacking error, which
    quotes neither the token nor any operand of it. In "5,x" with 3 pages the
    token "x" is malformed, yet the loop stops at "5" with an out-of-range
    error. *)
Lemma malformed_without_named_parse_error :
  ("1-2-3" ∈ Py.split "," "1-2-3"
   /\ Token.malformed "1-2-3" = true
   /\ SplitPdf.parse_page_ranges "1-2-3" 5 = Raise SplitPdf.TooManyValues
   /\ ~ (exists e, SplitPdf.parse_page_ranges "1-2-3" 5 = Raise e
                   /\ Token.is_parse_error e = true
                   /\ Token.quotes e "1-2-3" = true))
  /\ ("x" ∈ Py.split "," "5,x"
      /\ Token.malformed "x" = true
      /\ SplitPdf.parse_page_ranges "5,x" 3 = Raise (SplitPdf.PageOutOfBounds 5 3)
      /\ ~ (exists e, SplitPdf.parse_page_ranges "5,x" 3 = Raise e
                      /\ Token.is_parse_error e = true
                      /\ Token.quotes e "x" = true)).
Proof.
  assert (SplitPdf.parse_page_ranges "1-2-3" 5 = Raise SplitPdf.TooManyValues)
    as H1 by (vm_compute; reflexivity).
  assert (SplitPdf.parse_page_ranges "5,x" 3 = Raise (SplitPdf.PageOutOfBounds 5 3))
    as H2 by (vm_compute; reflexivity).
  split; (split; [|split; [|split]]).
  - change (Py.split "," "1-2-3") with ["1-2-3"]. set_solver.
  - reflexivity.
  - exact H1.
  - intros (e & He & _ & Hq). rewrite H1 in He. injection He as <-.
    discriminate.
  - change (Py.split "," "5,x") with ["5"; "x"]. set_solver.
  - reflexivity.
  - exact H2.
  - intros (e & He & Hp & _). rewrite H2 in He. injection He as <-.
    discriminate.
Qed.

(** C5, amended: whenever some token is malformed (text that is not an
    integer, or a hyphen token with a missing or an extra operand),
    [parse_page_ranges] raises and returns nothing. If no token ahead of it
    is out of range, the error is a parse error; if every token ahead of it
    is well formed and in range, the error is the one of this token: for an
    extra operand the unpacking error, which names no token, and otherwise
    the [int()] error quoting the token or the operand of it that is not an
    integer. *)
Theorem malformed_token_fails (range_str : string) (total_pages : Z)
  (before after : list string) (part : string) :
  Py.split "," range_str = before ++ part :: after ->
  Token.malformed part = true ->
  (exists e, SplitPdf.parse_page_ranges range_str total_pages = Raise e)
  /\ (Forall (fun t => Token.out_of_range total_pages t = false) before ->
      exists e, SplitPdf.parse_page_ranges range_str total_pages = Raise e
                /\ Token.is_parse_error e = true)
  /\ (Forall (fun t => Token.fine total_pages t = true) before ->
      exists e, SplitPdf.parse_page_ranges range_str total_pages = Raise e
                /\ Token.is_parse_error e = true
                /\ if Token.extra_operands part
                   then e = SplitPdf.TooManyValues
                   else Token.quotes e part = true).
Proof.
  intros Hsplit Hm. split; [|split].
  - destruct (parse_parts_raises total_pages [] (Py.split "," range_str) part)
      as [e He].
    + rewrite Hsplit. set_solver.
    + unfold Token.fine. rewrite Hm. reflexivity.
    + exists e. apply parse_page_ranges_raise, He.
  - intros Hb.
    destruct (parse_parts_parse_error total_pages [] before after part Hb Hm)
      as (e & He & Hp).
    exists e. split; [|exact Hp].
    apply parse_page_ranges_raise. rewrite Hsplit. exact He.
  - intros Hb.
    destruct (parse_part_malformed total_pages
                ([] ++ concat (Token.pages_of <$> before)) part Hm)
      as (e & He & Hp & Hq).
    exists e. split; [|split; [exact Hp|exact Hq]].
    apply parse_page_ranges_raise.
    rewrite Hsplit, parse_parts_fine by exact Hb.
    simpl. simpl in He. rewrite He. reflexivity.
Qed.

Lemma malformed_token_fails_witness :
  Py.split "," "1,2-,3" = ["1"] ++ "2-" :: ["3"]
  /\ Token.malformed "2-" = true
  /\ exists e, SplitPdf.parse_page_ranges "1,2-,3" 5 = Raise e
               /\ Token.is_parse_error e = true
               /\ Token.quotes e "2-" = true.
Proof.
  assert (Py.split "," "1,2-,3" = ["1"] ++ "2-" :: ["3"]) as Hs by reflexivity.
  assert (Token.malformed "2-" = true) as Hm by reflexivity.
  split; [exact Hs|split; [exact Hm|]].
  destruct (malformed_token_fails "1,2-,3" 5 ["1"] ["3"] "2-" Hs Hm)
    as (_ & _ & H).
  apply H. repeat constructor.
Defined.

(** C6: with no range expression ([pages] is [None], or the empty string,
    which Python also takes as false), [split_pdf] selects
    [range(1, total_pages + 1)], the ascending sequence 1..total_pages; for 4
    pages this is [1,2,3,4], and splitting a 4-page document without
    [--pages] writes one file for each of the pages 1, 2, 3 and 4. *)
Theorem split_selects_all_pages_by_default :
  (forall total_pages,
     SplitPdf.select_pages None total_pages = Ok (Py.range 1 (total_pages + 1)))
  /\ (forall total_pages,
        SplitPdf.select_pages (Some "") total_pages
        = Ok (Py.range 1 (total_pages + 1)))
  /\ (forall n : nat,
        SplitPdf.select_pages None (Z.of_nat n) = Ok (Z.of_nat <$> seq 1 n))
  /\ SplitPdf.select_pages None 4 = Ok [1; 2; 3; 4]
  /\ (let one (id : N) := Lib.Document [[Lib.Content id]] None in
      let doc :=
        Lib.Document
          [[Lib.Content 1]; [Lib.Content 2]; [Lib.Content 3]; [Lib.Content 4]]
          None in
      let fs : gmap string Lib.node := <["in.pdf" := Lib.PdfFile doc]> ∅ in
      let (status, w') :=
        run (SplitPdf.main (SplitPdf.Args "in.pdf" "out" None "page_"))
          (Lib.World fs []) in
      status = 0
      /\ Lib.files w'
         = <["out/page_4.pdf" := Lib.PdfFile (one 4%N)]>
             (<["out/page_3.pdf" := Lib.PdfFile (one 3%N)]>
                (<["out/page_2.pdf" := Lib.PdfFile (one 2%N)]>
                   (<["out/page_1.pdf" := Lib.PdfFile (one 1%N)]>
                      (<["out" := Lib.Directory]> fs))))).
Proof.
  split; [reflexivity|split; [reflexivity|split; [|split; [reflexivity|]]]].
  - intros n. simpl. rewrite range_from_one. reflexivity.
  - vm_compute. exact (conj eq_refl eq_refl).
Qed.

(** ** The commands *)

Section MergeFacts.
Import Lib Merging.

(** [writer.append] reads the file, logs the read and leaves the files
    alone; what it adds to the writer and what it raises is [appended]. *)
Lemma append_appended (m : Pypdf.writer) (path : string) (w : world) :
  Pypdf.append m path w =
  ((Document (doc_pages m ++ (appended (files w) path).1) (doc_encryption m),
    (appended (files w) path).2),
   World (files w) (log w ++ [OpenRead path])).
Proof.
  unfold Pypdf.append, Pypdf.PdfReader, Os.open_rb, appended, Pypdf.reader_of,
    bind, emit, ret, raise.
  destruct m as [mp me]. simpl.
  destruct (files w !! path) as [[d|c|ps c|]|]; simpl;
    rewrite ?app_nil_r; try reflexivity.
  destruct (Pypdf.locked d); simpl; rewrite ?app_nil_r; reflexivity.
Qed.

Lemma merged_pages_cons (fs : gmap string node) (f : string)
  (rest : list string) :
  merged_pages fs (f :: rest) = (appended fs f).1 ++ merged_pages fs rest.
Proof. reflexivity. Qed.

Lemma appended_raises_exception (fs : gmap string node) (f : string) (e : exn) :
  (appended fs f).2 = Some e ->
  exists msg, e = FileNotFoundError msg \/ e = Exception msg.
Proof.
  unfold appended.
  destruct (fs !! f) as [[d|c|ps c|]|]; [destruct (Pypdf.locked d)|..];
    simpl; intros [= <-]; eauto.
Qed.

(** The loop never raises: an input whose [append] raises costs a warning,
    and the merger keeps what that [append] had added. *)
Lemma add_files_spec (n : Z) (pdf_files : list string) :
  forall (i : Z) (m : Pypdf.writer) (w : world),
    MergePdfs.add_files n i pdf_files m w =
    (Ok (Document (doc_pages m ++ merged_pages (files w) pdf_files)
           (doc_encryption m)),
     World (files w) (log w ++ merge_log (files w) n i pdf_files)).
Proof.
  induction pdf_files as [|f rest IH]; intros i m w.
  - unfold merged_pages. simpl. rewrite !app_nil_r.
    destruct m, w. reflexivity.
  - rewrite merged_pages_cons. simpl.
    unfold bind at 1. unfold print at 1, emit at 1.
    unfold bind at 1. unfold try_method at 1. rewrite append_appended. simpl.
    destruct ((appended (files w) f).2) as [e|] eqn:Hl.
    + destruct (appended_raises_exception _ _ _ Hl) as (msg & [-> | ->]);
        unfold bind, print, emit, ret; simpl; rewrite IH; simpl;
        rewrite <- !app_assoc; reflexivity.
    + rewrite IH. simpl. rewrite <- !app_assoc. reflexivity.
Qed.



(** What [merge_pdfs] does after the loop. *)
Lemma merge_pdfs_after_loop (pdf_files : list string) (output_path : string)
  (w : world) :
  MergePdfs.merge_pdfs pdf_files output_path w =
  (print ("Writing merged PDF to " +:+ output_path +:+ "...") >>
   Pypdf.write_to output_path
     (Document (merged_pages (files w) pdf_files) None) >>
   print ("✓ Successfully merged " +:+ Py.str (len pdf_files) +:+ " files"))
    (World (files w)
       (log w ++ merge_log (files w) (len pdf_files) 0 pdf_files)).
Proof.
  unfold MergePdfs.merge_pdfs. unfold bind at 1. rewrite add_files_spec.
  reflexivity.
Qed.

(** The two ways [merge_pdfs] ends: the write is refused, or the merger is
    in the output file. *)
Lemma merge_pdfs_run (pdf_files : list string) (output_path : string)
  (w : world) :
  let merged := Document (merged_pages (files w) pdf_files) None in
  let l :=
    log w ++ merge_log (files w) (len pdf_files) 0 pdf_files
    ++ [Print ("Writing merged PDF to " +:+ output_path +:+ "...");
        OpenWrite output_path] in
  MergePdfs.merge_pdfs pdf_files output_path w =
  match files w !! output_path with
  | Some Directory =>
      (Raise (Exception (Os.is_a_directory output_path)), World (files w) l)
  | _ =>
      (Ok tt,
       World (<[output_path := PdfFile merged]> (files w))
         (l ++ [Print ("✓ Successfully merged " +:+ Py.str (len pdf_files)
                       +:+ " files")]))
  end.
Proof.
  intros merged l. rewrite merge_pdfs_after_loop.
  unfold bind, print, emit, Pypdf.write_to, Os.open_wb, Os.put_file, bind,
    emit. simpl. subst l merged.
  destruct (files w !! output_path) as [[d|c|ps c|]|]; simpl;
    rewrite ?insert_insert_eq, <- !app_assoc; reflexivity.
Qed.

Lemma merge_main_run (a : MergePdfs.args) (w : world) :
  MergePdfs.output a ∉ MergePdfs.inputs a ->
  MergePdfs.main a w =
  match MergePdfs.merge_pdfs (MergePdfs.inputs a) (MergePdfs.output a) w with
  | (Raise e, w') =>
      (Raise (SystemExit 1),
       World (files w') (log w' ++ [Print ("Error: " +:+ exn_str e)]))
  | ok => ok
  end.
Proof.
  intros Hnotin. unfold MergePdfs.main.
  rewrite bool_decide_eq_false_2 by exact Hnotin.
  unfold bind at 1. unfold ret at 1. unfold try_except.
  rewrite merge_pdfs_run.
  destruct (files w !! MergePdfs.output a) as [[d|c|ps c|]|]; reflexivity.
Qed.

End MergeFacts.




(** C10: when the output path is one of the input paths, [main] of
    merge_pdfs prints its error and exits with status 1. The files are left as
    they were and the log gains that one line only: no input is opened, no
    output is opened, no merge is attempted. *)
Theorem merge_refuses_output_among_inputs (a : MergePdfs.args) (w : Lib.world) :
  MergePdfs.output a ∈ MergePdfs.inputs a ->
  run (MergePdfs.main a) w
  = (1, Lib.World (Lib.files w)
          (Lib.log w
           ++ [Lib.Print "Error: Output file cannot be one of the input files"])).
Proof.
  intros Hin. unfold run, MergePdfs.main.
  rewrite bool_decide_eq_true_2 by exact Hin. reflexivity.
Qed.

Lemma merge_refuses_output_among_inputs_witness :
  let fs : gmap string Lib.node :=
    <["a.pdf" := Lib.PdfFile (Lib.Document [[Lib.Content 1]] None)]> ∅ in
  run (MergePdfs.main (MergePdfs.Args "a.pdf" ["b.pdf"; "a.pdf"])) (Lib.World fs [])
  = (1, Lib.World fs
          [Lib.Print "Error: Output file cannot be one of the input files"]).
Proof.
  intros fs.
  apply (merge_refuses_output_among_inputs
           (MergePdfs.Args "a.pdf" ["b.pdf"; "a.pdf"]) (Lib.World fs [])).
  simpl. set_solver.
Defined.

(** C7: decrypting an encrypted document with a password that the library
    refuses ([decrypt] returns a false value: the password opens the
    document neither as user nor as owner password) exits with status 1.
    The files are left as they were, the output path included, and the log
    shows the read of the input and two printed lines: the output is never
    opened. *)
Theorem decrypt_wrong_password_fails (a : ProtectPdf.args) (w : Lib.world)
  (d : Lib.document) :
  ProtectPdf.act a = ProtectPdf.decrypt ->
  Lib.files w !! ProtectPdf.input a = Some (Lib.PdfFile d) ->
  Pypdf.is_encrypted (Pypdf.reader_of d) = true ->
  (Pypdf.decrypt (Pypdf.reader_of d) (ProtectPdf.password a)).1 = false ->
  run (ProtectPdf.main a) w
  = (1, Lib.World (Lib.files w)
          (Lib.log w
           ++ [Lib.OpenRead (ProtectPdf.input a);
               Lib.Print "Decrypting PDF...";
               Lib.Print "Error: Incorrect password"])).
Proof.
  intros Hact Hfile Henc Hwrong.
  unfold run, ProtectPdf.main, try_except_fnf, try_except. rewrite Hact.
  unfold ProtectPdf.decrypt_pdf, Pypdf.PdfReader, Os.open_rb, Lib.bind,
    Lib.emit. simpl. rewrite Hfile. simpl. rewrite Henc. simpl.
  destruct (Pypdf.decrypt (Pypdf.reader_of d) (ProtectPdf.password a))
    as [ok r]. simpl in Hwrong. subst ok. simpl.
  rewrite <- !app_assoc. reflexivity.
Qed.

Lemma decrypt_wrong_password_fails_witness :
  let d := Lib.Document [[Lib.Content 1]] (Some ("secret", "admin")) in
  let fs : gmap string Lib.node := <["in.pdf" := Lib.PdfFile d]> ∅ in
  run (ProtectPdf.main (ProtectPdf.Args ProtectPdf.decrypt "in.pdf" "out.pdf" "guess"))
    (Lib.World fs [])
  = (1, Lib.World fs
          [Lib.OpenRead "in.pdf"; Lib.Print "Decrypting PDF...";
           Lib.Print "Error: Incorrect password"]).
Proof.
  intros d fs.
  apply (decrypt_wrong_password_fails
           (ProtectPdf.Args ProtectPdf.decrypt "in.pdf" "out.pdf" "guess")
           (Lib.World fs []) d).
  - reflexivity.
  - vm_compute. reflexivity.
  - reflexivity.
  - vm_compute. reflexivity.
Defined.

(** C9, on the code: the [--font-size] option never reaches the renderer.
    [main] behaves the same whatever [font_size] holds, and with
    [--font-size 20] the text is still drawn at size 60, the default of
    [create_watermark], while opacity and rotation are the ones given. *)
Theorem font_size_option_is_ignored :
  (forall (a : AddWatermark.args) (size : Z),
     AddWatermark.main a =
     AddWatermark.main
       (AddWatermark.Args (AddWatermark.input a) (AddWatermark.output a)
          (AddWatermark.text a) (AddWatermark.opacity a)
          (AddWatermark.rotation a) size))
  /\ (let fs : gmap string Lib.node :=
        <["in.pdf" := Lib.PdfFile (Lib.Document [[Lib.Content 1]] None)]> ∅ in
      let a := AddWatermark.Args "in.pdf" "out.pdf" "DRAFT" 0.25%float 30 20 in
      let (status, w') := run (AddWatermark.main a) (Lib.World fs []) in
      status = 0
      /\ Lib.files w' !! "out.pdf"
         = Some (Lib.PdfFile
                   (Lib.Document
                      [[Lib.Content 1;
                        Lib.Drawn
                          (Lib.Stamp "DRAFT" "Helvetica" 60 0.25%float
                             [Lib.Translate 300 400; Lib.Rotate 30;
                              Lib.Translate 0 0])]]
                      None))).
Proof.
  split.
  - intros a size. reflexivity.
  - vm_compute. exact (conj eq_refl eq_refl).
Qed.

(** ** More on the built-ins: splitting a joined string, [int] after [str] *)

Section PyRoundTrips.

Ltac eval_chars :=
  repeat match goal with
         | |- context [nat_of_ascii ?c] =>
             let v := eval vm_compute in (nat_of_ascii c) in
             change (nat_of_ascii c) with v
         end.

Lemma split_app (c : ascii) (s1 s2 : string) :
  Py.split c (s1 +:+ String c s2) = Py.split c s1 ++ Py.split c s2.
Proof.
  induction s1 as [|d r IH]; simpl.
  - rewrite Ascii.eqb_refl. reflexivity.
  - destruct (Ascii.eqb d c); [rewrite IH; reflexivity|].
    rewrite IH. pose proof (split_nonempty c r) as Hne.
    destruct (Py.split c r) as [|h t]; [congruence|reflexivity].
Qed.

(** The digits of a decimal numeral are no whitespace, so stripping leaves
    them alone. *)
Lemma rstrip_string_of_uint (d : Decimal.uint) :
  Py.rstrip (NilEmpty.string_of_uint d) = NilEmpty.string_of_uint d.
Proof.
  induction d; simpl; [reflexivity|..];
    rewrite IHd; destruct (NilEmpty.string_of_uint d); reflexivity.
Qed.

Lemma lstrip_string_of_uint (d : Decimal.uint) :
  Py.lstrip (NilEmpty.string_of_uint d) = NilEmpty.string_of_uint d.
Proof. destruct d; reflexivity. Qed.

Lemma digits_string_of_uint_acc (d : Decimal.uint) :
  forall acc : positive,
    Py.digits (Z.pos acc) false (NilEmpty.string_of_uint d)
    = Some (Z.pos (Pos.of_uint_acc d acc)).
Proof.
  induction d; intros acc; simpl; [reflexivity|..];
    unfold Py.digit_value; simpl; rewrite <- IHd; f_equal; eval_chars; lia.
Qed.

Lemma digits_string_of_uint (d : Decimal.uint) :
  Py.digits 0 false (NilEmpty.string_of_uint d) = Some (Z.of_N (Pos.of_uint d)).
Proof.
  induction d; simpl; [reflexivity|exact IHd|..];
    unfold Py.digit_value; simpl; eval_chars; apply digits_string_of_uint_acc.
Qed.

Lemma unsigned_string_of_uint (d : Decimal.uint) :
  d <> Decimal.Nil ->
  Py.unsigned (NilEmpty.string_of_uint d) = Some (Z.of_N (Pos.of_uint d)).
Proof.
  intros Hd. unfold Py.unsigned.
  pose proof (digits_string_of_uint d) as H.
  destruct d; [congruence|..]; exact H.
Qed.

Lemma contains_string_of_uint (c : ascii) (d : Decimal.uint) :
  Py.digit_value c = None -> Py.contains c (NilEmpty.string_of_uint d) = false.
Proof.
  intros Hc. induction d; cbn [Py.contains NilEmpty.string_of_uint];
    [reflexivity|..];
    match goal with
    | |- (if Ascii.eqb ?a c then _ else _) = _ =>
        destruct (Ascii.eqb a c) eqn:He; [|exact IHd]
    end;
    apply Ascii.eqb_eq in He; subst c; discriminate.
Qed.

Lemma to_uint_nonnil (p : positive) : Pos.to_uint p <> Decimal.Nil.
Proof. apply DecimalPos.Unsigned.to_uint_nonnil. Qed.

Lemma str_nonneg (n : Z) :
  0 <= n ->
  exists d, d <> Decimal.Nil
            /\ Py.str n = NilEmpty.string_of_uint d
            /\ Z.of_N (Pos.of_uint d) = n.
Proof.
  intros Hn. destruct n as [|p|p]; [| |lia].
  - exists (Decimal.D0 Decimal.Nil). repeat split; discriminate.
  - exists (Pos.to_uint p). split; [apply to_uint_nonnil|]. split.
    + unfold Py.str. simpl. unfold NilZero.string_of_uint.
      pose proof (to_uint_nonnil p). destruct (Pos.to_uint p); congruence.
    + rewrite DecimalPos.Unsigned.of_to. reflexivity.
Qed.

(** [int(str(n)) == n] for a page number or a page count. *)
Lemma int_str_nonneg (n : Z) : 0 <= n -> Py.int (Py.str n) = Some n.
Proof.
  intros Hn. destruct (str_nonneg n Hn) as (d & Hd & -> & <-).
  unfold Py.int, Py.strip.
  rewrite rstrip_string_of_uint, lstrip_string_of_uint.
  pose proof (unsigned_string_of_uint d Hd) as H.
  destruct d; [congruence|..]; exact H.
Qed.

Lemma contains_str_nonneg (c : ascii) (n : Z) :
  0 <= n -> Py.digit_value c = None -> Py.contains c (Py.str n) = false.
Proof.
  intros Hn Hc. destruct (str_nonneg n Hn) as (d & _ & -> & _).
  apply contains_string_of_uint, Hc.
Qed.

End PyRoundTrips.

(** ** More on the page-range resolver *)

Section ResolverFacts.

Lemma elem_of_pages (x : Z) (parts : list string) :
  x ∈ concat (Token.pages_of <$> parts)
  <-> exists t, t ∈ parts /\ x ∈ Token.pages_of t.
Proof.
  rewrite list_elem_of_In, in_concat. split.
  - intros (ps & Hps & Hx).
    apply list_elem_of_In, list_elem_of_fmap in Hps as (t & -> & Ht).
    exists t. split; [exact Ht|apply list_elem_of_In, Hx].
  - intros (t & Ht & Hx). exists (Token.pages_of t). split.
    + apply list_elem_of_In, list_elem_of_fmap. eauto.
    + apply list_elem_of_In, Hx.
Qed.

Lemma elem_of_pages_of (x : Z) (part : string) :
  x ∈ Token.pages_of part
  <-> match Token.shape_of part with
      | Token.Single page => x = page
      | Token.Span start end_ => start <= x <= end_
      | Token.Malformed => False
      end.
Proof.
  unfold Token.pages_of. destruct (Token.shape_of part).
  - apply list_elem_of_singleton.
  - rewrite elem_of_range. lia.
  - apply elem_of_nil.
Qed.

Lemma sorted_set_ext (l1 l2 : list Z) :
  (forall x, x ∈ l1 <-> x ∈ l2) -> Py.sorted (Py.set l1) = Py.sorted (Py.set l2).
Proof.
  intros H. f_equal. unfold Py.set. apply set_eq. intros x.
  rewrite !elem_of_list_to_set. apply H.
Qed.

Lemma sorted_set_of_sorted (l : list Z) :
  StronglySorted Z.lt l -> Py.sorted (Py.set l) = l.
Proof.
  intros Hl.
  assert (NoDup l) as Hnd.
  { induction Hl as [|x l Hl IH Hx]; [constructor|].
    apply NoDup_cons. split; [|exact IH].
    intros Hin. rewrite Forall_forall in Hx. specialize (Hx _ Hin). lia. }
  assert (StronglySorted Z.le l) as Hle.
  { clear Hnd. induction Hl as [|x l Hl IH Hx]; [constructor|].
    constructor; [exact IH|].
    eapply Forall_impl; [exact Hx|]. intros y Hy. simpl in Hy. lia. }
  eapply (StronglySorted_unique Z.le); [apply Sorted_sorted|exact Hle|].
  unfold Py.sorted, Py.set.
  rewrite merge_sort_Permutation. apply elements_list_to_set, Hnd.
Qed.

Lemma range_sorted (a b : Z) : StronglySorted Z.lt (Py.range a b).
Proof.
  unfold Py.range. generalize (Z.to_nat (b - a)) as n. intros n.
  generalize 0%nat as i. induction n as [|n IH]; intros i; simpl.
  - constructor.
  - constructor; [apply IH|].
    apply Forall_forall. intros y Hy.
    apply list_elem_of_fmap in Hy as (j & -> & Hj).
    apply elem_of_seq in Hj. lia.
Qed.

(** The accumulated pages play no part in what an iteration adds or
    raises. *)
Lemma parse_part_acc (total_pages : Z) (pages : list Z) (part : string) :
  SplitPdf.parse_part total_pages pages part =
  let? added := SplitPdf.parse_part total_pages [] part in Ok (pages ++ added).
Proof.
  unfold SplitPdf.parse_part.
  destruct (Py.contains "-" part).
  - destruct (Py.split "-" part) as [|a [|b [|c rest]]]; try reflexivity.
    destruct (SplitPdf.int a) as [start|]; simpl; [|reflexivity].
    destruct (SplitPdf.int b) as [end_|]; simpl; [|reflexivity].
    destruct ((start <? 1) || (end_ >? total_pages)); reflexivity.
  - destruct (SplitPdf.int part) as [page|]; simpl; [|reflexivity].
    destruct ((page <? 1) || (page >? total_pages)); reflexivity.
Qed.

Lemma parse_parts_acc (total_pages : Z) (parts : list string) :
  forall pages,
    SplitPdf.parse_parts total_pages pages parts =
    let? added := SplitPdf.parse_parts total_pages [] parts in
    Ok (pages ++ added).
Proof.
  induction parts as [|t ts IH]; intros pages; simpl.
  - rewrite app_nil_r. reflexivity.
  - rewrite parse_part_acc.
    destruct (SplitPdf.parse_part total_pages [] t) as [added|e]; simpl;
      [|reflexivity].
    rewrite IH, (IH added).
    destruct (SplitPdf.parse_parts total_pages [] ts) as [more|e]; simpl;
      [|reflexivity].
    rewrite app_assoc. reflexivity.
Qed.

Lemma parse_parts_app (total_pages : Z) (parts1 parts2 : list string) :
  forall pages,
    SplitPdf.parse_parts total_pages pages (parts1 ++ parts2) =
    let? pages := SplitPdf.parse_parts total_pages pages parts1 in
    SplitPdf.parse_parts total_pages pages parts2.
Proof.
  induction parts1 as [|t ts IH]; intros pages; simpl; [reflexivity|].
  destruct (SplitPdf.parse_part total_pages pages t); simpl;
    [apply IH|reflexivity].
Qed.

Lemma resolved_in_range (range_str : string) (total_pages : Z) (l : list Z)
  (x : Z) :
  SplitPdf.parse_page_ranges range_str total_pages = Ok l ->
  x ∈ l -> 1 <= x <= total_pages.
Proof.
  intros [Hfine ->]%parse_page_ranges_ok Hx.
  apply elem_of_sorted_set, elem_of_pages in Hx as (t & Ht & Hx).
  rewrite Forall_forall in Hfine.
  eapply pages_of_in_range; [apply Hfine, Ht|exact Hx].
Qed.

Lemma length_range (a b : Z) : length (Py.range a b) = Z.to_nat (b - a).
Proof. unfold Py.range. rewrite length_fmap, length_seq. reflexivity. Qed.

(** A token made of [str] of two numbers around a hyphen. *)
Lemma parse_explicit_range (a b total_pages : Z) :
  0 <= a -> 0 <= b ->
  SplitPdf.parse_page_ranges (Py.str a +:+ String "-" (Py.str b)) total_pages =
  if (a <? 1) || (b >? total_pages)
  then Raise (SplitPdf.RangeOutOfBounds a b total_pages)
  else Ok (Py.range a (b + 1)).
Proof.
  intros Ha Hb.
  assert (Py.split "-" (Py.str a +:+ String "-" (Py.str b))
          = [Py.str a; Py.str b]) as Hs.
  { rewrite split_app, !split_no_sep
      by (apply contains_str_nonneg; [assumption|reflexivity]).
    reflexivity. }
  assert (Py.contains "," (Py.str a +:+ String "-" (Py.str b)) = false) as Hc.
  { destruct (str_nonneg a Ha) as (da & _ & -> & _).
    destruct (str_nonneg b Hb) as (db & _ & -> & _).
    clear. induction da; cbn [NilEmpty.string_of_uint String.append Py.contains];
      try exact IHda.
    change (Ascii.eqb "-" ",") with false. cbn iota.
    apply contains_string_of_uint. reflexivity. }
  unfold SplitPdf.parse_page_ranges. rewrite (split_no_sep _ _ Hc).
  cbn [SplitPdf.parse_parts]. unfold SplitPdf.parse_part.
  rewrite (split_two_contains _ _ _ _ Hs), Hs. unfold SplitPdf.int.
  rewrite !int_str_nonneg by assumption. cbn [rbind app].
  destruct ((a <? 1) || (b >? total_pages)); [reflexivity|].
  cbn [rbind]. f_equal. apply sorted_set_of_sorted, range_sorted.
Qed.

End ResolverFacts.

(** X1: a page is in the resolved set exactly when some token names it: a
    single-integer token equal to it, or a [start-end] token with
    [start <= page <= end]. *)
Theorem page_selected_iff_named (range_str : string) (total_pages : Z)
  (l : list Z) (p : Z) :
  SplitPdf.parse_page_ranges range_str total_pages = Ok l ->
  (p ∈ l
   <-> exists part,
         part ∈ Py.split "," range_str
         /\ match Token.shape_of part with
            | Token.Single page => p = page
            | Token.Span start end_ => start <= p <= end_
            | Token.Malformed => False
            end).
Proof.
  intros [_ ->]%parse_page_ranges_ok.
  rewrite elem_of_sorted_set, elem_of_pages.
  split; intros (t & Ht & Hp); exists t; (split; [exact Ht|]);
    apply elem_of_pages_of, Hp.
Qed.

Lemma page_selected_iff_named_witness :
  (2 ∈ [1; 2; 3; 7]
   <-> exists part,
         part ∈ Py.split "," "7,1-3"
         /\ match Token.shape_of part with
            | Token.Single page => 2 = page
            | Token.Span start end_ => start <= 2 <= end_
            | Token.Malformed => False
            end).
Proof.
  apply (page_selected_iff_named "7,1-3" 9 [1; 2; 3; 7] 2).
  vm_compute. reflexivity.
Defined.

(** X2: only the set of tokens matters. Two expressions with the same tokens,
    in any order and with any repetitions, resolve to the same list whenever
    the first one resolves. *)
Theorem token_order_and_repeats_irrelevant (s1 s2 : string) (total_pages : Z)
  (l : list Z) :
  (forall t, t ∈ Py.split "," s1 <-> t ∈ Py.split "," s2) ->
  SplitPdf.parse_page_ranges s1 total_pages = Ok l ->
  SplitPdf.parse_page_ranges s2 total_pages = Ok l.
Proof.
  intros Hsame [Hfine ->]%parse_page_ranges_ok.
  apply parse_page_ranges_ok. split.
  - rewrite Forall_forall in Hfine |- *. intros t Ht. apply Hfine, Hsame, Ht.
  - apply sorted_set_ext. intros x. rewrite !elem_of_pages.
    split; intros (t & Ht & Hx); exists t; (split; [apply Hsame, Ht|exact Hx]).
Qed.

Lemma token_order_and_repeats_irrelevant_witness :
  SplitPdf.parse_page_ranges "5,1-3,5,5" 9 = Ok [1; 2; 3; 5].
Proof.
  apply (token_order_and_repeats_irrelevant "1-3,5" "5,1-3,5,5" 9).
  - intros t. change (Py.split "," "1-3,5") with ["1-3"; "5"].
    change (Py.split "," "5,1-3,5,5") with ["5"; "1-3"; "5"; "5"].
    rewrite !elem_of_cons, !elem_of_nil. tauto.
  - vm_compute. reflexivity.
Defined.

(** X3: resolving two expressions joined by a comma. If both resolve, the
    joined expression resolves to the sorted union of the two results; if the
    first fails, the joined expression fails with the same error; if only the
    second fails, with the error of the second. *)
Theorem resolve_joined (s1 s2 : string) (total_pages : Z) :
  SplitPdf.parse_page_ranges (s1 +:+ String "," s2) total_pages =
  match SplitPdf.parse_page_ranges s1 total_pages,
        SplitPdf.parse_page_ranges s2 total_pages with
  | Ok l1, Ok l2 => Ok (Py.sorted (Py.set (l1 ++ l2)))
  | Raise e, _ => Raise e
  | Ok _, Raise e => Raise e
  end.
Proof.
  unfold SplitPdf.parse_page_ranges. rewrite split_app, parse_parts_app.
  destruct (SplitPdf.parse_parts total_pages [] (Py.split "," s1))
    as [p1|e1]; simpl; [|reflexivity].
  rewrite parse_parts_acc.
  destruct (SplitPdf.parse_parts total_pages [] (Py.split "," s2))
    as [p2|e2]; simpl; [|reflexivity].
  f_equal. apply sorted_set_ext. intros x.
  rewrite !elem_of_app, !elem_of_sorted_set. reflexivity.
Qed.

(** X4: the resolved list is never longer than the document: at most
    [total_pages] pages are selected, and none when the page count is not
    positive. *)
Theorem resolved_at_most_total (range_str : string) (total_pages : Z)
  (l : list Z) :
  SplitPdf.parse_page_ranges range_str total_pages = Ok l ->
  len l <= Z.max 0 total_pages.
Proof.
  intros Hok.
  assert (l ⊆+ Py.range 1 (total_pages + 1)) as Hsub.
  { apply NoDup_submseteq.
    - apply parse_page_ranges_ok in Hok as [_ ->]. apply NoDup_sorted.
    - intros x Hx. apply elem_of_range.
      pose proof (resolved_in_range _ _ _ _ Hok Hx). lia. }
  apply submseteq_length in Hsub. rewrite length_range in Hsub.
  unfold len. lia.
Qed.

Lemma resolved_at_most_total_witness : len [1; 2; 3] <= Z.max 0 3.
Proof.
  apply (resolved_at_most_total "3,1-3,2,1" 3 [1; 2; 3]).
  vm_compute. reflexivity.
Defined.

(** X5: an empty token is rejected. The empty expression, an expression that
    ends or starts with a comma, and one with two commas in a row all make
    [parse_page_ranges] raise, whatever the other tokens and the page
    count. *)
Theorem stray_comma_rejected (total_pages : Z) :
  SplitPdf.parse_page_ranges "" total_pages = Raise (SplitPdf.InvalidLiteral "")
  /\ (forall s, exists e,
        SplitPdf.parse_page_ranges (s +:+ ",") total_pages = Raise e)
  /\ (forall s, exists e,
        SplitPdf.parse_page_ranges (String "," s) total_pages = Raise e)
  /\ (forall s1 s2, exists e,
        SplitPdf.parse_page_ranges (s1 +:+ ",," +:+ s2) total_pages = Raise e).
Proof.
  assert (forall s, "" ∈ Py.split "," s ->
                    exists e, SplitPdf.parse_page_ranges s total_pages = Raise e)
    as Hempty.
  { intros s Hin.
    destruct (parse_parts_raises total_pages [] (Py.split "," s) "" Hin)
      as [e He]; [reflexivity|].
    exists e. apply parse_page_ranges_raise, He. }
  split; [reflexivity|split; [|split]].
  - intros s. apply Hempty. rewrite split_app. simpl.
    apply elem_of_app. right. apply list_elem_of_here.
  - intros s. apply Hempty. simpl. apply list_elem_of_here.
  - intros s1 s2. apply Hempty.
    change (",," +:+ s2) with (String "," (String "," s2)).
    rewrite split_app. apply elem_of_app. right. simpl.
    apply list_elem_of_here.
Qed.

(** X6: the expression that is just the decimal numeral of a page number,
    of at most 4300 digits (the interpreter converts no longer numeral),
    resolves to that page alone when the page is in the document, and raises
    the out-of-range error for that page otherwise. *)
Theorem resolve_single_page (p total_pages : Z) :
  0 <= p ->
  (String.length (Py.str p) <= 4300)%nat ->
  SplitPdf.parse_page_ranges (Py.str p) total_pages =
  if (p <? 1) || (p >? total_pages)
  then Raise (SplitPdf.PageOutOfBounds p total_pages)
  else Ok [p].
Proof.
  intros Hp _.
  assert (Py.contains "," (Py.str p) = false) as Hcomma
    by (apply contains_str_nonneg; [assumption|reflexivity]).
  assert (Py.contains "-" (Py.str p) = false) as Hhyphen
    by (apply contains_str_nonneg; [assumption|reflexivity]).
  unfold SplitPdf.parse_page_ranges. rewrite (split_no_sep _ _ Hcomma).
  cbn [SplitPdf.parse_parts]. unfold SplitPdf.parse_part, SplitPdf.int.
  rewrite Hhyphen, int_str_nonneg by assumption. cbn [rbind app].
  destruct ((p <? 1) || (p >? total_pages)); [reflexivity|].
  cbn [rbind]. f_equal. apply sorted_set_of_sorted.
  repeat constructor.
Qed.

Lemma resolve_single_page_witness :
  SplitPdf.parse_page_ranges "12" 20 = Ok [12]
  /\ SplitPdf.parse_page_ranges "12" 5 = Raise (SplitPdf.PageOutOfBounds 12 5).
Proof.
  split.
  - apply (resolve_single_page 12 20); [lia|apply Nat.leb_le; reflexivity].
  - apply (resolve_single_page 12 5); [lia|apply Nat.leb_le; reflexivity].
Defined.

(** X7: the expression made of the numerals of [a] and [b] around a
    hyphen, each of at most 4300 digits (the interpreter converts no longer
    numeral), resolves to every page from [a] to [b] in ascending order when
    [1 <= a] and [b <= total_pages] (to nothing when [b < a]), and raises
    the out-of-range error for that range otherwise. *)
Theorem resolve_explicit_range (a b total_pages : Z) :
  0 <= a -> 0 <= b ->
  (String.length (Py.str a) <= 4300)%nat ->
  (String.length (Py.str b) <= 4300)%nat ->
  SplitPdf.parse_page_ranges (Py.str a +:+ "-" +:+ Py.str b) total_pages =
  if (a <? 1) || (b >? total_pages)
  then Raise (SplitPdf.RangeOutOfBounds a b total_pages)
  else Ok (Py.range a (b + 1)).
Proof. intros Ha Hb _ _. apply parse_explicit_range; assumption. Qed.

Lemma resolve_explicit_range_witness :
  SplitPdf.parse_page_ranges "3-6" 10 = Ok [3; 4; 5; 6]
  /\ SplitPdf.parse_page_ranges "0-6" 10 = Raise (SplitPdf.RangeOutOfBounds 0 6 10).
Proof.
  split.
  - apply (resolve_explicit_range 3 6 10);
      first [lia|apply Nat.leb_le; reflexivity].
  - apply (resolve_explicit_range 0 6 10);
      first [lia|apply Nat.leb_le; reflexivity].
Defined.

(** X8: asking for the pages 1 to N of an N-page document selects the same
    pages as leaving the expression out. *)
Theorem explicit_full_range_is_default (total_pages : Z) :
  0 <= total_pages ->
  SplitPdf.select_pages (Some ("1-" +:+ Py.str total_pages)) total_pages
  = SplitPdf.select_pages None total_pages.
Proof.
  intros Hn.
  pose proof (parse_explicit_range 1 total_pages total_pages
                ltac:(lia) Hn) as H.
  replace ((1 <? 1) || (total_pages >? total_pages)) with false in H
    by (symmetry; apply orb_false_iff; lia).
  exact H.
Qed.

Lemma explicit_full_range_is_default_witness :
  SplitPdf.select_pages (Some "1-4") 4 = SplitPdf.select_pages None 4.
Proof. apply (explicit_full_range_is_default 4). lia. Defined.

(** ** Steps of the commands *)

Section IoSteps.
Import Lib.

Lemma PdfReader_pdf (path : string) (w : world) (d : document) :
  files w !! path = Some (PdfFile d) ->
  Pypdf.PdfReader path w
  = (Ok (Pypdf.reader_of d), World (files w) (log w ++ [OpenRead path])).
Proof.
  intros H. unfold Pypdf.PdfReader, Os.open_rb, bind, emit. simpl.
  rewrite H. reflexivity.
Qed.


Lemma write_to_ok (path : string) (doc : document) (w : world) :
  files w !! path <> Some Directory ->
  Pypdf.write_to path doc w
  = (Ok tt, World (<[path := PdfFile doc]> (files w)) (log w ++ [OpenWrite path])).
Proof.
  intros H. unfold Pypdf.write_to, Os.open_wb, Os.put_file, bind, emit. simpl.
  destruct (files w !! path) as [[d|c|ps c|]|]; try congruence;
    simpl; rewrite insert_insert_eq; reflexivity.
Qed.

Lemma write_to_directory (path : string) (doc : document) (w : world) :
  files w !! path = Some Directory ->
  Pypdf.write_to path doc w
  = (Raise (Exception (Os.is_a_directory path)),
     World (files w) (log w ++ [OpenWrite path])).
Proof.
  intros H. unfold Pypdf.write_to, Os.open_wb, Os.put_file, bind, emit. simpl.
  rewrite H. reflexivity.
Qed.

(** [makedirs] either raises an exception that [main] reports, or leaves
    a directory at the path. *)
Lemma makedirs_inv (path : string) (w w1 : world) (r : result exn unit) :
  Os.makedirs path w = (r, w1) ->
  (r = Ok tt
   /\ w1 = World (<[path := Directory]> (files w)) (log w ++ [MakeDirs path]))
  \/ (exists msg, r = Raise (FileNotFoundError msg) \/ r = Raise (Exception msg)).
Proof.
  unfold Os.makedirs, bind, emit. simpl.
  destruct path as [|c p]; [intros [= <- <-]; right; eauto|].
  destruct (files w !! String c p) as [[d|c'|ps c'|]|] eqn:H;
    intros [= <- <-]; eauto.
  left. split; [reflexivity|]. rewrite insert_id by exact H. reflexivity.
Qed.

Lemma pages_unencrypted (d : document) (w : world) :
  doc_encryption d = None ->
  Pypdf.pages (Pypdf.reader_of d) w = (Ok (doc_pages d), w).
Proof.
  intros H. unfold Pypdf.pages, Pypdf.reader_of, Pypdf.locked. rewrite H.
  reflexivity.
Qed.

Lemma getitem_in_range {A} (l : list A) (p : Z) (w : world) :
  1 <= p <= len l ->
  exists a, l !! Z.to_nat (p - 1) = Some a /\ getitem l (p - 1) w = (Ok a, w).
Proof.
  intros Hp. unfold len in Hp.
  assert ((p - 1 <? 0) = false) as Hlt by (apply Z.ltb_ge; lia).
  destruct (l !! Z.to_nat (p - 1)) as [a|] eqn:Ha.
  - exists a. split; [reflexivity|].
    unfold getitem. rewrite Hlt. cbn zeta. rewrite Hlt, Ha. reflexivity.
  - apply lookup_ge_None in Ha. lia.
Qed.

End IoSteps.

(** ** Splitting: one file per selected page *)

Section SplitFacts.
Import Lib Splitting.

Lemma string_app_cons (c : ascii) (r s : string) :
  String c r +:+ s = String c (r +:+ s).
Proof. reflexivity. Qed.

Lemma string_app_assoc (s1 s2 s3 : string) :
  (s1 +:+ s2) +:+ s3 = s1 +:+ (s2 +:+ s3).
Proof.
  induction s1 as [|c r IH]; [reflexivity|].
  rewrite !string_app_cons, IH. reflexivity.
Qed.

Lemma list_ascii_app (s1 s2 : string) :
  list_ascii_of_string (s1 +:+ s2)
  = list_ascii_of_string s1 ++ list_ascii_of_string s2.
Proof.
  induction s1 as [|c r IH]; [reflexivity|].
  rewrite string_app_cons. simpl. rewrite IH. reflexivity.
Qed.

Lemma string_app_inj_r (s1 s2 t : string) : s1 +:+ t = s2 +:+ t -> s1 = s2.
Proof.
  intros H. apply (f_equal list_ascii_of_string) in H.
  rewrite !list_ascii_app in H. apply app_inv_tail in H.
  apply (f_equal string_of_list_ascii) in H.
  rewrite !string_of_list_ascii_of_string in H. exact H.
Qed.

Lemma string_app_inj_l (s t1 t2 : string) : s +:+ t1 = s +:+ t2 -> t1 = t2.
Proof.
  induction s as [|c r IH]; [auto|].
  rewrite !string_app_cons. intros [= H]. apply IH, H.
Qed.

Lemma str_inj (p q : Z) : 0 <= p -> 0 <= q -> Py.str p = Py.str q -> p = q.
Proof.
  intros Hp Hq H. apply (f_equal Py.int) in H.
  rewrite !int_str_nonneg in H by assumption. congruence.
Qed.

(** The target of a page is a fixed text followed by the page number and
    ".pdf". *)
Lemma target_shape (output_dir prefix : string) (p : Z) :
  0 <= p ->
  target output_dir prefix p
  = target_base output_dir prefix +:+ Py.str p +:+ ".pdf".
Proof.
  intros Hp. unfold target, target_base, join_base, Os.path_join.
  destruct prefix as [|c r].
  - destruct (str_nonneg p Hp) as (d & Hd & -> & _).
    destruct d; try congruence; cbn [NilEmpty.string_of_uint String.append];
      (destruct output_dir as [|c' r']; [reflexivity|]);
      (destruct (Os.ends_with_slash (String c' r')); [reflexivity|]);
      rewrite string_app_assoc; reflexivity.
  - cbn [String.append].
    destruct (Ascii.eqb c "/") eqn:Hc.
    + apply Ascii.eqb_eq in Hc. subst c. reflexivity.
    + assert (forall rest : string,
                 match String c rest with
                 | String "/" _ => true
                 | _ => false
                 end = false) as Hno.
      { intros rest. apply Ascii.eqb_neq in Hc.
        destruct c as [[] [] [] [] [] [] [] []]; try reflexivity.
        congruence. }
      clear Hc.
      destruct c as [[] [] [] [] [] [] [] []];
        try (specialize (Hno EmptyString); discriminate);
        (destruct output_dir as [|c' r']; [reflexivity|]);
        (destruct (Os.ends_with_slash (String c' r'));
         rewrite <- ?string_app_assoc; reflexivity).
Qed.

Lemma target_inj (output_dir prefix : string) (p q : Z) :
  0 <= p -> 0 <= q ->
  target output_dir prefix p = target output_dir prefix q -> p = q.
Proof.
  intros Hp Hq H. rewrite !target_shape in H by assumption.
  apply string_app_inj_l, string_app_inj_r in H.
  apply str_inj; assumption.
Qed.

Lemma written_other (all : list page) (output_dir prefix path : string)
  (l : list Z) :
  forall fs,
    (forall p, p ∈ l -> path <> target output_dir prefix p) ->
    written all output_dir prefix fs l !! path = fs !! path.
Proof.
  unfold written. induction l as [|q l IH]; intros fs Hne; simpl;
    [reflexivity|].
  rewrite IH by (intros p Hp; apply Hne; right; exact Hp).
  apply lookup_insert_ne. intros Heq. apply (Hne q); [left|auto].
Qed.

Lemma written_target (all : list page) (output_dir prefix : string)
  (l : list Z) (p : Z) :
  forall fs,
    (forall q, q ∈ l -> 0 <= q) ->
    p ∈ l ->
    written all output_dir prefix fs l !! target output_dir prefix p
    = Some (single all p).
Proof.
  induction l as [|q l IH]; intros fs Hpos Hin.
  - apply elem_of_nil in Hin. contradiction.
  - assert (forall x, x ∈ l -> 0 <= x) as Hpos'
      by (intros x Hx; apply Hpos; right; exact Hx).
    destruct (decide (p ∈ l)) as [Hl|Hl].
    + apply (IH _ Hpos' Hl).
    + apply elem_of_cons in Hin as [->|Hin]; [|contradiction].
      change (written all output_dir prefix fs (q :: l))
        with (written all output_dir prefix
                (<[target output_dir prefix q := single all q]> fs) l).
      rewrite written_other; [apply lookup_insert_eq|].
      intros x Hx Heq. apply target_inj in Heq.
      * subst x. contradiction.
      * apply Hpos. left.
      * apply Hpos'. exact Hx.
Qed.

(** The loop either raises an exception that [main] reports, or writes the
    file of every page number; then no target was a directory. *)
Lemma write_pages_inv (all : list page) (output_dir prefix : string)
  (l : list Z) :
  forall fs lg r w',
    (forall p, p ∈ l -> 1 <= p <= len all) ->
    SplitPdf.write_pages all output_dir prefix l (World fs lg) = (r, w') ->
    (r = Ok tt
     /\ w' = World (written all output_dir prefix fs l)
               (lg ++ concat (page_log output_dir prefix <$> l))
     /\ forall p, p ∈ l -> fs !! target output_dir prefix p <> Some Directory)
    \/ (exists msg, r = Raise (Exception msg)).
Proof.
  induction l as [|p l IH]; intros fs lg r w' Hrange.
  - simpl. intros [= <- <-]. left. rewrite app_nil_r.
    split; [reflexivity|split; [reflexivity|]].
    intros p Hp. apply elem_of_nil in Hp. contradiction.
  - cbn [SplitPdf.write_pages]. unfold bind at 1.
    unfold SplitPdf.write_page. unfold bind at 1.
    destruct (getitem_in_range all p (World fs lg)) as (pg & Hpg & ->);
      [apply Hrange; left|].
    unfold bind at 1. fold (target output_dir prefix p).
    assert (fs !! target output_dir prefix p = Some Directory
            \/ fs !! target output_dir prefix p <> Some Directory) as [Hd|Hd].
    { destruct (fs !! target output_dir prefix p) as [[d|c|ps c|]|];
        first [left; reflexivity|right; discriminate]. }
    + rewrite write_to_directory by exact Hd. intros [= <- <-]. right. eauto.
    + rewrite write_to_ok by exact Hd.
      unfold print, emit. cbn [files log]. intros Hrest.
      apply IH in Hrest as [(-> & -> & Hnd)|Hraise];
        [left|right; exact Hraise|intros q Hq; apply Hrange; right; exact Hq].
      split; [reflexivity|split].
      * unfold written, single, Pypdf.add_page, Pypdf.PdfWriter.
        cbn [foldl fmap list_fmap concat page_log doc_pages doc_encryption app].
        rewrite Hpg. cbn [option_list]. rewrite <- !app_assoc. reflexivity.
      * intros q Hq. apply elem_of_cons in Hq as [->|Hq]; [exact Hd|].
        destruct (decide (target output_dir prefix q
                          = target output_dir prefix p)) as [->|Hne];
          [exact Hd|].
        specialize (Hnd q Hq). rewrite lookup_insert_ne in Hnd by auto.
        exact Hnd.
Qed.

Lemma select_pages_in_range (pages : option string) (total_pages : Z)
  (l : list Z) (p : Z) :
  SplitPdf.select_pages pages total_pages = Ok l ->
  p ∈ l -> 1 <= p <= total_pages.
Proof.
  unfold SplitPdf.select_pages. intros Hsel Hp.
  destruct pages as [[|c r]|];
    try (injection Hsel as <-; apply elem_of_range in Hp; lia).
  eapply resolved_in_range; eauto.
Qed.

End SplitFacts.

(** X9: splitting writes one file per selected page. When [main] of
    split_pdf exits with status 0 on an unencrypted PDF, the pages were
    selected without an error, the output directory is there, the file of
    every selected page number holds exactly that page of the input, and
    the last line printed reports the number of pages selected. *)
Theorem split_writes_one_file_per_page (a : SplitPdf.args) (w w' : Lib.world)
  (d : Lib.document) :
  let target := Splitting.target (SplitPdf.output_dir a) (SplitPdf.prefix a) in
  Lib.files w !! SplitPdf.input a = Some (Lib.PdfFile d) ->
  Lib.doc_encryption d = None ->
  run (SplitPdf.main a) w = (0, w') ->
  exists l,
    SplitPdf.select_pages (SplitPdf.pages a) (len (Lib.doc_pages d)) = Ok l
    /\ Lib.files w' !! SplitPdf.output_dir a = Some Lib.Directory
    /\ (forall p, p ∈ l ->
          exists pg,
            Lib.doc_pages d !! Z.to_nat (p - 1) = Some pg
            /\ Lib.files w' !! target p
               = Some (Lib.PdfFile (Lib.Document [pg] None)))
    /\ last (Lib.log w')
       = Some (Lib.Print ("✓ Successfully split " +:+ Py.str (len l)
                          +:+ " pages")).
Proof.
  intros target Hin Henc. unfold run.
  unfold SplitPdf.main, try_except_fnf, try_except, SplitPdf.split_pdf.
  unfold Lib.bind at 1. rewrite (PdfReader_pdf _ _ _ Hin).
  unfold Lib.bind at 1. rewrite pages_unencrypted by exact Henc.
  unfold Lib.bind at 1.
  destruct (Os.makedirs (SplitPdf.output_dir a) _) as [r1 w1] eqn:Hmk.
  apply makedirs_inv in Hmk as [(-> & ->)|(msg & [-> | ->])];
    [|discriminate..].
  unfold Lib.bind at 1.
  destruct (SplitPdf.select_pages (SplitPdf.pages a) (len (Lib.doc_pages d)))
    as [l|e] eqn:Hsel; [|discriminate].
  assert (forall p, p ∈ l -> 1 <= p <= len (Lib.doc_pages d)) as Hrange
    by (intros p Hp; eapply select_pages_in_range; eauto).
  unfold Lib.ret at 1.
  unfold Lib.bind at 1. unfold Lib.print at 1, Lib.emit at 1.
  unfold Lib.bind at 1. cbn [Lib.files Lib.log].
  destruct (SplitPdf.write_pages _ _ _ _ _) as [r2 w2] eqn:Hwp.
  apply write_pages_inv in Hwp as [(-> & -> & Hnd)|(msg & ->)];
    [|discriminate|exact Hrange].
  unfold Lib.print, Lib.emit. cbn [exit_status Lib.files Lib.log].
  intros [= <-]. exists l. cbn [Lib.files Lib.log].
  split; [reflexivity|split; [|split]].
  - rewrite written_other; [apply lookup_insert_eq|].
    intros p Hp Heq. apply (Hnd p Hp). rewrite <- Heq.
    apply lookup_insert_eq.
  - intros p Hp. destruct (Hrange p Hp) as [Hlo Hhi].
    destruct (getitem_in_range (Lib.doc_pages d) p w (conj Hlo Hhi))
      as (pg & Hpg & _).
    exists pg. split; [exact Hpg|].
    unfold target. rewrite written_target.
    + unfold Splitting.single. rewrite Hpg. reflexivity.
    + intros q Hq. specialize (Hrange q Hq). lia.
    + exact Hp.
  - apply last_snoc.
Qed.

Lemma split_writes_one_file_per_page_witness :
  let doc :=
    Lib.Document [[Lib.Content 1]; [Lib.Content 2]; [Lib.Content 3]] None in
  let fs : gmap string Lib.node := <["in.pdf" := Lib.PdfFile doc]> ∅ in
  let a := SplitPdf.Args "in.pdf" "out" (Some "3,1") "p" in
  let w' := (run (SplitPdf.main a) (Lib.World fs [])).2 in
  run (SplitPdf.main a) (Lib.World fs []) = (0, w')
  /\ Lib.files w' !! "out/p3.pdf"
     = Some (Lib.PdfFile (Lib.Document [[Lib.Content 3]] None))
  /\ Lib.files w' !! "out/p1.pdf"
     = Some (Lib.PdfFile (Lib.Document [[Lib.Content 1]] None)).
Proof.
  intros doc fs a w'.
  assert (run (SplitPdf.main a) (Lib.World fs []) = (0, w')) as Hrun
    by (vm_compute; reflexivity).
  split; [exact Hrun|].
  destruct (split_writes_one_file_per_page a (Lib.World fs []) w' doc)
    as (l & Hsel & _ & Hpages & _);
    [vm_compute; reflexivity|reflexivity|exact Hrun|].
  assert (l = [1; 3]) as -> by (vm_compute in Hsel; congruence).
  split.
  - destruct (Hpages 3) as (pg & Hpg & Hfile); [right; left|].
    vm_compute in Hpg. injection Hpg as <-. exact Hfile.
  - destruct (Hpages 1) as (pg & Hpg & Hfile); [left|].
    vm_compute in Hpg. injection Hpg as <-. exact Hfile.
Defined.





(** ** Merging: exit status, untouched files, composition *)

Section MergeRuns.
Import Lib Merging.

(** The three ways [main] of merge_pdfs ends. *)
Lemma merge_main_exit (a : MergePdfs.args) (w : world) :
  let n := len (MergePdfs.inputs a) in
  let merged :=
    Document (merged_pages (files w) (MergePdfs.inputs a)) None in
  let l :=
    log w ++ merge_log (files w) n 0 (MergePdfs.inputs a)
    ++ [Print ("Writing merged PDF to " +:+ MergePdfs.output a +:+ "...");
        OpenWrite (MergePdfs.output a)] in
  run (MergePdfs.main a) w =
  if bool_decide (MergePdfs.output a ∈ MergePdfs.inputs a) then
    (1, World (files w)
          (log w ++ [Print "Error: Output file cannot be one of the input files"]))
  else
    match files w !! MergePdfs.output a with
    | Some Directory =>
        (1, World (files w)
              (l ++ [Print ("Error: "
                            +:+ Os.is_a_directory (MergePdfs.output a))]))
    | _ =>
        (0, World (<[MergePdfs.output a := PdfFile merged]> (files w))
              (l ++ [Print ("✓ Successfully merged " +:+ Py.str n
                            +:+ " files")]))
    end.
Proof.
  intros n merged l. unfold run.
  destruct (bool_decide (MergePdfs.output a ∈ MergePdfs.inputs a)) eqn:Hin.
  - unfold MergePdfs.main. rewrite Hin. reflexivity.
  - apply bool_decide_eq_false in Hin.
    rewrite merge_main_run by exact Hin. rewrite merge_pdfs_run.
    destruct (files w !! MergePdfs.output a) as [[d|c|ps c|]|]; reflexivity.
Qed.

(** A run that exits with status 0 has written the merger to the output. *)
Lemma merge_main_exit_0 (a : MergePdfs.args) (w w' : world) :
  run (MergePdfs.main a) w = (0, w') ->
  (MergePdfs.output a ∉ MergePdfs.inputs a)
  /\ files w'
     = <[MergePdfs.output a :=
           PdfFile (Document (merged_pages (files w) (MergePdfs.inputs a))
                      None)]> (files w)
  /\ last (log w')
     = Some (Print ("✓ Successfully merged "
                    +:+ Py.str (len (MergePdfs.inputs a)) +:+ " files")).
Proof.
  rewrite merge_main_exit.
  destruct (bool_decide (MergePdfs.output a ∈ MergePdfs.inputs a)) eqn:Hin;
    [discriminate|].
  apply bool_decide_eq_false in Hin.
  destruct (files w !! MergePdfs.output a) as [[d|c|ps c|]|];
    intros [= <-]; (split; [exact Hin|split; [reflexivity|apply last_snoc]]).
Qed.

Lemma merge_log_events (fs : gmap string node) (n : Z) (l : list string)
  (ev : event) :
  forall i,
    ev ∈ merge_log fs n i l ->
    (exists line, ev = Print line) \/ (exists f, f ∈ l /\ ev = OpenRead f).
Proof.
  induction l as [|f l IH]; intros i; simpl.
  - intros H. apply elem_of_nil in H. contradiction.
  - rewrite !elem_of_cons, elem_of_app. intros [->|[->|[H|H]]].
    + left. eauto.
    + right. exists f. split; [left|reflexivity].
    + left. destruct ((appended fs f).2); [|apply elem_of_nil in H; contradiction].
      apply list_elem_of_singleton in H. subst ev. unfold warning. eauto.
    + destruct (IH _ H) as [Hp|(g & Hg & ->)]; [left; exact Hp|].
      right. exists g. split; [right; exact Hg|reflexivity].
Qed.



Lemma merged_pages_none (fs : gmap string node) (l : list string) :
  (forall f, f ∈ l -> (appended fs f).1 = []) -> merged_pages fs l = [].
Proof.
  induction l as [|f l IH]; intros H; [reflexivity|].
  rewrite merged_pages_cons, IH by (intros g Hg; apply H; right; exact Hg).
  rewrite (H f) by left. reflexivity.
Qed.

End MergeRuns.

(** X12: how merge_pdfs ends. [main] exits with status 0 or 1. With status
    0 the output is not among the inputs and the last line printed is the
    success line, which counts all the inputs, loaded or not; with status 1
    the last line printed is an error line. *)
Theorem merge_exit_status (a : MergePdfs.args) (w : Lib.world) :
  let (status, w') := run (MergePdfs.main a) w in
  (status = 0
   /\ (MergePdfs.output a ∉ MergePdfs.inputs a)
   /\ last (Lib.log w')
      = Some (Lib.Print ("✓ Successfully merged "
                         +:+ Py.str (len (MergePdfs.inputs a)) +:+ " files")))
  \/ (status = 1
      /\ exists msg, last (Lib.log w') = Some (Lib.Print ("Error: " +:+ msg))).
Proof.
  rewrite merge_main_exit.
  destruct (bool_decide (MergePdfs.output a ∈ MergePdfs.inputs a)) eqn:Hin.
  - right. split; [reflexivity|].
    exists "Output file cannot be one of the input files". apply last_snoc.
  - apply bool_decide_eq_false in Hin.
    destruct (Lib.files w !! MergePdfs.output a) as [[d|c|ps c|]|];
      first [left; split; [reflexivity|split; [exact Hin|apply last_snoc]]
            |right; split; [reflexivity|eexists; apply last_snoc]].
Qed.

(** X13: merge_pdfs opens nothing for writing but its output. Whatever the
    outcome of [main], the only path opened for writing is the output path,
    the only paths opened for reading are inputs, and no directory is
    made. *)
Theorem merge_touches_only_output (a : MergePdfs.args) (w : Lib.world) :
  exists gained,
    Lib.log (run (MergePdfs.main a) w).2 = Lib.log w ++ gained
    /\ (forall p, Lib.OpenWrite p ∈ gained -> p = MergePdfs.output a)
    /\ (forall p, Lib.OpenRead p ∈ gained -> p ∈ MergePdfs.inputs a)
    /\ (forall p, Lib.MakeDirs p ∉ gained).
Proof.
  rewrite merge_main_exit.
  destruct (bool_decide (MergePdfs.output a ∈ MergePdfs.inputs a)).
  { eexists. split; [reflexivity|].
    split; [|split]; intros p Hp; apply list_elem_of_singleton in Hp;
      discriminate. }
  assert (forall tail : list Lib.event,
            (forall ev, ev ∈ tail ->
                        ev = Lib.OpenWrite (MergePdfs.output a)
                        \/ exists line, ev = Lib.Print line) ->
            let gained :=
              Merging.merge_log (Lib.files w) (len (MergePdfs.inputs a)) 0
                (MergePdfs.inputs a) ++ tail in
            (forall p, Lib.OpenWrite p ∈ gained -> p = MergePdfs.output a)
            /\ (forall p, Lib.OpenRead p ∈ gained -> p ∈ MergePdfs.inputs a)
            /\ (forall p, Lib.MakeDirs p ∉ gained)) as Hgained.
  { intros tail Htail gained. subst gained.
    split; [|split]; intros p Hp; apply elem_of_app in Hp as [Hp|Hp];
      try (apply merge_log_events in Hp as [(line & Hl)|(f & Hf & Hl)];
           try discriminate);
      try (apply Htail in Hp as [Hl|(line & Hl)]; try discriminate).
    - congruence.
    - injection Hl as ->. exact Hf. }
  destruct (Lib.files w !! MergePdfs.output a) as [[d|c|ps c|]|];
    cbn [snd Lib.log]; eexists;
    (split; [rewrite <- !app_assoc; reflexivity|]);
    apply Hgained; intros ev Hev;
    repeat (apply elem_of_cons in Hev as [->|Hev]; [eauto|]);
    apply elem_of_nil in Hev; contradiction.
Qed.

Lemma merge_touches_only_output_witness :
  let fs : gmap string Lib.node :=
    <["a.pdf" := Lib.PdfFile (Lib.Document [[Lib.Content 1]] None)]> ∅ in
  let a := MergePdfs.Args "out.pdf" ["a.pdf"; "b.pdf"] in
  Lib.OpenWrite "a.pdf" ∉ Lib.log (run (MergePdfs.main a) (Lib.World fs [])).2.
Proof.
  intros fs a.
  destruct (merge_touches_only_output a (Lib.World fs []))
    as (gained & Hlog & Hwrite & _).
  rewrite Hlog. cbn [Lib.log app]. intros Hin.
  apply Hwrite in Hin. discriminate.
Defined.

(** X14: when every input fails before a page of it is added (a missing
    file, a directory, a file that is not a PDF, a locked one) and [main]
    of merge_pdfs exits with status 0, the output is a PDF with no pages, and
    the last line printed reports all the inputs as merged. *)
Theorem merge_of_unreadable_inputs (a : MergePdfs.args) (w w' : Lib.world) :
  (forall f, f ∈ MergePdfs.inputs a ->
             exists e, Merging.appended (Lib.files w) f = ([], Some e)) ->
  run (MergePdfs.main a) w = (0, w') ->
  Lib.files w' !! MergePdfs.output a
  = Some (Lib.PdfFile (Lib.Document [] None))
  /\ last (Lib.log w')
     = Some (Lib.Print ("✓ Successfully merged "
                        +:+ Py.str (len (MergePdfs.inputs a)) +:+ " files")).
Proof.
  intros Hnone Hrun.
  apply merge_main_exit_0 in Hrun as (_ & -> & Hlast).
  split; [|exact Hlast].
  rewrite lookup_insert_eq, merged_pages_none; [reflexivity|].
  intros f Hf. destruct (Hnone f Hf) as [e ->]. reflexivity.
Qed.

Lemma merge_of_unreadable_inputs_witness :
  let fs : gmap string Lib.node :=
    <["b.pdf" := Lib.Corrupt "EOF marker not found"]> ∅ in
  let a := MergePdfs.Args "out.pdf" ["b.pdf"; "c.pdf"] in
  let w' := (run (MergePdfs.main a) (Lib.World fs [])).2 in
  run (MergePdfs.main a) (Lib.World fs []) = (0, w')
  /\ Lib.files w' !! "out.pdf" = Some (Lib.PdfFile (Lib.Document [] None))
  /\ last (Lib.log w') = Some (Lib.Print "✓ Successfully merged 2 files").
Proof.
  intros fs a w'.
  assert (run (MergePdfs.main a) (Lib.World fs []) = (0, w')) as Hrun
    by (vm_compute; reflexivity).
  split; [exact Hrun|].
  apply (merge_of_unreadable_inputs a (Lib.World fs []) w'); [|exact Hrun].
  intros f Hf. cbn in Hf.
  apply elem_of_cons in Hf as [->|Hf];
    [|apply list_elem_of_singleton in Hf; subst f]; eexists;
    vm_compute; reflexivity.
Defined.



(** ** Encrypting and decrypting *)

Section ProtectRuns.
Import Lib.









End ProtectRuns.







(** ** Watermarking *)

Section WatermarkRuns.
Import Lib.


End WatermarkRuns.

(** X19: an opacity outside [0, 1] is refused before anything else happens.
    When [0 <= opacity <= 1] does not hold (a negative value, a value above
    1, or NaN), [main] of add_watermark prints the error and exits with
    status 1; no file is opened or changed. *)
Theorem watermark_rejects_opacity (a : AddWatermark.args) (w : Lib.world) :
  (PrimFloat.leb 0 (AddWatermark.opacity a)
   && PrimFloat.leb (AddWatermark.opacity a) 1) = false ->
  run (AddWatermark.main a) w
  = (1, Lib.World (Lib.files w)
          (Lib.log w ++ [Lib.Print "Error: Opacity must be between 0.0 and 1.0"])).
Proof.
  intros Hop. unfold run, AddWatermark.main. rewrite Hop. reflexivity.
Qed.

Lemma watermark_rejects_opacity_witness :
  run (AddWatermark.main
         (AddWatermark.Args "in.pdf" "out.pdf" "DRAFT" PrimFloat.nan 45 60))
    (Lib.World ∅ [])
  = (1, Lib.World ∅ [Lib.Print "Error: Opacity must be between 0.0 and 1.0"])
  /\ run (AddWatermark.main
            (AddWatermark.Args "in.pdf" "out.pdf" "DRAFT" 1.5%float 45 60))
       (Lib.World ∅ [])
     = (1, Lib.World ∅ [Lib.Print "Error: Opacity must be between 0.0 and 1.0"]).
Proof.
  split.
  - apply (watermark_rejects_opacity
             (AddWatermark.Args "in.pdf" "out.pdf" "DRAFT" PrimFloat.nan 45 60)
             (Lib.World ∅ [])).
    vm_compute. reflexivity.
  - apply (watermark_rejects_opacity
             (AddWatermark.Args "in.pdf" "out.pdf" "DRAFT" 1.5%float 45 60)
             (Lib.World ∅ [])).
    vm_compute. reflexivity.
Defined.



(** ** Field arguments of fill_form *)

Section FieldFacts.
Import Lib FillForm.

Lemma split1_joined (name value : string) :
  Py.contains "=" name = false ->
  split1 "=" (name +:+ String "=" value) = [name; value].
Proof.
  induction name as [|c r IH]; intros Hc.
  - reflexivity.
  - rewrite string_app_cons. cbn [split1]. cbn [Py.contains] in Hc.
    destruct (Ascii.eqb c "="); [discriminate|].
    rewrite (IH Hc). reflexivity.
Qed.

(** An argument with an equals sign is a name without one, the sign, and a
    value. *)
Lemma split1_contains (arg : string) :
  Py.contains "=" arg = true ->
  exists name value,
    arg = name +:+ String "=" value
    /\ Py.contains "=" name = false
    /\ split1 "=" arg = [name; value].
Proof.
  induction arg as [|c r IH]; cbn [Py.contains]; [discriminate|].
  destruct (Ascii.eqb c "=") eqn:Hc.
  - intros _. apply Ascii.eqb_eq in Hc. subst c.
    exists EmptyString, r. repeat split; reflexivity.
  - intros Hr. destruct (IH Hr) as (name & value & -> & Hn & Hs).
    exists (String c name), value. split; [reflexivity|]. split.
    + cbn [Py.contains]. rewrite Hc. exact Hn.
    + cbn [split1]. rewrite Hc.
      change (String c name +:+ String "=" value)
        with (String c (name +:+ String "=" value)) in *.
      rewrite Hs. reflexivity.
Qed.

Lemma joined_inj (k k' v v' : string) :
  Py.contains "=" k = false -> Py.contains "=" k' = false ->
  k +:+ String "=" v = k' +:+ String "=" v' -> k = k' /\ v = v'.
Proof.
  intros Hk Hk' H. apply (f_equal (split1 "=")) in H.
  rewrite !split1_joined in H by assumption.
  injection H as -> ->. auto.
Qed.

Lemma parse_fields_step (name value : string) (rest : list string)
  (m : gmap string string) (w : world) :
  Py.contains "=" name = false ->
  parse_fields ((name +:+ String "=" value) :: rest) m w
  = parse_fields rest (<[name := value]> m) w.
Proof.
  intros Hn. cbn [parse_fields].
  assert (Py.contains "=" (name +:+ String "=" value) = true) as ->.
  { clear. induction name as [|c r IH]; [reflexivity|].
    rewrite string_app_cons. cbn [Py.contains].
    destruct (Ascii.eqb c "="); [reflexivity|exact IH]. }
  rewrite split1_joined by exact Hn. reflexivity.
Qed.

Lemma parse_fields_keeps (args : list string) (k : string) :
  forall (m : gmap string string) (w : world),
    Forall (fun s => Py.contains "=" s = true) args ->
    (forall arg, arg ∈ args -> forall v', arg <> k +:+ String "=" v') ->
    Py.contains "=" k = false ->
    exists m', parse_fields args m w = (Ok m', w) /\ m' !! k = m !! k.
Proof.
  induction args as [|arg args IH]; intros m w Hall Hother Hk.
  - exists m. split; reflexivity.
  - apply Forall_cons in Hall as [Harg Hall].
    destruct (split1_contains arg Harg) as (name & value & -> & Hn & _).
    rewrite parse_fields_step by exact Hn.
    destruct (IH (<[name := value]> m) w Hall) as (m' & Hrun & Hlook).
    + intros arg' Hin. apply Hother. right. exact Hin.
    + exact Hk.
    + exists m'. split; [exact Hrun|]. rewrite Hlook.
      apply lookup_insert_ne. intros ->.
      apply (Hother (k +:+ String "=" value) ltac:(left) value). reflexivity.
Qed.

End FieldFacts.

(** X21: the last [name=value] argument for a name wins. When every
    argument has an equals sign, [parse_field_args] returns a dict and prints
    nothing; an argument [name=value] (the name being the text before the
    first equals sign, so the value may itself contain one) maps the name to
    the value unless a later argument has the same name; and every entry of
    the dict comes from one of the arguments. *)
Theorem field_args_last_wins (field_args : list string) (w : Lib.world) :
  Forall (fun s => Py.contains "=" s = true) field_args ->
  exists m,
    FillForm.parse_field_args field_args w = (Ok m, w)
    /\ (forall before after k v,
          field_args = before ++ (k +:+ String "=" v) :: after ->
          Py.contains "=" k = false ->
          (forall arg, arg ∈ after -> forall v', arg <> k +:+ String "=" v') ->
          m !! k = Some v)
    /\ (forall k v,
          m !! k = Some v ->
          Py.contains "=" k = false /\ (k +:+ String "=" v) ∈ field_args).
Proof.
  intros Hall. unfold FillForm.parse_field_args.
  assert (forall args (m0 : gmap string string),
             Forall (fun s => Py.contains "=" s = true) args ->
             exists m,
               FillForm.parse_fields args m0 w = (Ok m, w)
               /\ forall k v,
                    m !! k = Some v ->
                    m0 !! k = Some v
                    \/ (Py.contains "=" k = false
                        /\ (k +:+ String "=" v) ∈ args)) as Hsound.
  { induction args as [|arg args IH]; intros m0 Hargs.
    - exists m0. split; [reflexivity|auto].
    - apply Forall_cons in Hargs as [Harg Hargs].
      destruct (split1_contains arg Harg) as (name & value & -> & Hn & _).
      rewrite parse_fields_step by exact Hn.
      destruct (IH (<[name := value]> m0) Hargs) as (m & Hrun & Hm).
      exists m. split; [exact Hrun|]. intros k v Hk.
      destruct (Hm k v Hk) as [H0|[Hc Hin]].
      + destruct (decide (name = k)) as [->|Hne].
        * rewrite lookup_insert_eq in H0. injection H0 as ->.
          right. split; [exact Hn|left].
        * rewrite lookup_insert_ne in H0 by exact Hne. left. exact H0.
      + right. split; [exact Hc|right; exact Hin]. }
  destruct (Hsound field_args ∅ Hall) as (m & Hrun & Hm).
  exists m. split; [exact Hrun|split].
  - intros before after k v -> Hk Hlater.
    apply Forall_app in Hall as [Hbefore Hrest].
    apply Forall_cons in Hrest as [_ Hafter].
    clear Hm Hsound. revert Hrun. generalize (∅ : gmap string string) as m0.
    induction Hbefore as [|arg before Harg _ IH]; intros m0 Hrun.
    + rewrite app_nil_l, parse_fields_step in Hrun by exact Hk.
      destruct (parse_fields_keeps after k (<[k := v]> m0) w Hafter Hlater Hk)
        as (m' & Hrun' & Hlook).
      rewrite Hrun' in Hrun. injection Hrun as <-.
      rewrite Hlook. apply lookup_insert_eq.
    + destruct (split1_contains arg Harg) as (name & value & -> & Hn & _).
      rewrite <- app_comm_cons, parse_fields_step in Hrun by exact Hn.
      eapply IH, Hrun.
  - intros k v Hk. destruct (Hm k v Hk) as [H0|H]; [|exact H].
    rewrite lookup_empty in H0. discriminate.
Qed.

Lemma field_args_last_wins_witness :
  exists m,
    FillForm.parse_field_args ["name=Ann"; "note=a=b"; "name=Bob"] (Lib.World ∅ [])
    = (Ok m, Lib.World ∅ [])
    /\ m !! "name" = Some "Bob"
    /\ m !! "note" = Some "a=b".
Proof.
  destruct (field_args_last_wins ["name=Ann"; "note=a=b"; "name=Bob"]
              (Lib.World ∅ [])) as (m & Hrun & Hlast & _).
  - repeat constructor.
  - exists m. split; [exact Hrun|split].
    + apply (Hlast ["name=Ann"; "note=a=b"] [] "name" "Bob");
        [reflexivity|reflexivity|].
      intros arg Harg. apply elem_of_nil in Harg. contradiction.
    + apply (Hlast ["name=Ann"] ["name=Bob"] "note" "a=b");
        [reflexivity|reflexivity|].
      intros arg Harg v'. apply list_elem_of_singleton in Harg. subst arg.
      discriminate.
Defined.

(** X22: an argument without an equals sign stops [parse_field_args]. The
    first such argument is named in the one line printed, the exit status is
    1, no dict is returned, and the arguments after it are not looked at. *)
Theorem field_args_reject_missing_equals (before after : list string)
  (bad : string) (w : Lib.world) :
  Forall (fun s => Py.contains "=" s = true) before ->
  Py.contains "=" bad = false ->
  FillForm.parse_field_args (before ++ bad :: after) w
  = (Raise (Lib.SystemExit 1),
     Lib.World (Lib.files w)
       (Lib.log w
        ++ [Lib.Print ("Error: Invalid field format '" +:+ bad
                       +:+ "'. Use: name=value")])).
Proof.
  intros Hbefore Hbad. unfold FillForm.parse_field_args.
  generalize (∅ : gmap string string) as m0.
  induction Hbefore as [|arg before Harg _ IH]; intros m0.
  - rewrite app_nil_l. cbn [FillForm.parse_fields]. rewrite Hbad. reflexivity.
  - destruct (split1_contains arg Harg) as (name & value & -> & Hn & _).
    rewrite <- app_comm_cons, parse_fields_step by exact Hn. apply IH.
Qed.

Lemma field_args_reject_missing_equals_witness :
  FillForm.parse_field_args ["name=Ann"; "oops"; "x=1"] (Lib.World ∅ [])
  = (Raise (Lib.SystemExit 1),
     Lib.World ∅
       [Lib.Print "Error: Invalid field format 'oops'. Use: name=value"]).
Proof.
  apply (field_args_reject_missing_equals ["name=Ann"] ["x=1"] "oops"
           (Lib.World ∅ [])).
  - repeat constructor.
  - reflexivity.
Defined.

(** ** Table extraction: which page, which table *)

Section TableRuns.
Import ExtractTables.


Lemma open_pdf_ok (path : string) (w : world) (pages : list page) :
  files w !! path = Some (Pdf pages) -> open_pdf path w = (Ok pages, w).
Proof. intros H. unfold open_pdf. rewrite H. reflexivity. Qed.




End TableRuns.

(** X23: a page number outside the document. With [--page p] where [p < 1]
    or [p] is above the number of pages, [main] of extract_tables prints
    "Error: Page p out of range (1-N)" and exits with status 1; no file is
    written, whether or not [--all-pages] is given. *)
Theorem tables_page_out_of_range (a : ExtractTables.args)
  (w : ExtractTables.world) (pages : list ExtractTables.page) (p : Z) :
  ExtractTables.files w !! ExtractTables.input a = Some (ExtractTables.Pdf pages) ->
  ExtractTables.page_arg a = Some p ->
  p < 1 \/ len pages < p ->
  ExtractTables.run (ExtractTables.main a) w
  = (1, ExtractTables.World (ExtractTables.files w)
          (ExtractTables.stderr w
           ++ ["Error: Page " +:+ Py.str p +:+ " out of range (1-"
               +:+ Py.str (len pages) +:+ ")"])).
Proof.
  intros Hin Hpage Hout.
  assert (((p <? 1) || (p >? len pages)) = true) as Hcheck
    by (apply orb_true_iff; lia).
  unfold ExtractTables.run, ExtractTables.main. cbn zeta.
  unfold ExtractTables.bind at 1. unfold ExtractTables.extract_tables.
  unfold ExtractTables.bind at 1. rewrite (open_pdf_ok _ _ _ Hin), Hpage, Hcheck.
  reflexivity.
Qed.

Lemma tables_page_out_of_range_witness :
  let pg := ExtractTables.Page (fun _ => [[[Some "a"]]]) [] in
  let fs : gmap string ExtractTables.node :=
    <["in.pdf" := ExtractTables.Pdf [pg; pg]]> ∅ in
  ExtractTables.run
    (ExtractTables.main
       (ExtractTables.Args "in.pdf" "out.csv" (Some 3) true ExtractTables.lines))
    (ExtractTables.World fs [])
  = (1, ExtractTables.World fs ["Error: Page 3 out of range (1-2)"]).
Proof.
  intros pg fs.
  apply (tables_page_out_of_range
           (ExtractTables.Args "in.pdf" "out.csv" (Some 3) true ExtractTables.lines)
           (ExtractTables.World fs []) [pg; pg] 3).
  - vm_compute. reflexivity.
  - reflexivity.
  - right. vm_compute. reflexivity.
Defined.






